(** * pxdatautil: file paths and loaders for the monthly GP prescribing data

    A shallow embedding of [pxdatautil.py].  Python integers are [Z],
    strings are [string], lists are [list]; exceptions are an explicit
    result type; the file system and the standard output are an explicit
    world that the effectful functions thread through. *)

From Stdlib Require Import ZArith Lia Ascii String.
From stdpp Require Import base tactics option list strings pretty gmap.

Local Open Scope Z_scope.

(** ** Exceptions and results *)

(** The exceptions the module can raise.  An [assert] that fails raises
    [AssertionError] with the message written after the comma. *)
Inductive exn : Type :=
  | AssertionError (msg : string)
  | ValueError
  | KeyError (key : string)
  | IndexError
  | FileNotFoundError (path : string)
  | OutOfBoundsDatetime
  | ParserError
  | TypeError.

(** Outcome of a call.  [OutOfFuel] is not a Python outcome: it marks a
    bounded unrolling of a [while] loop that was cut too short, and the
    adequacy lemmas below show that the functions of the module never
    produce it. *)
Inductive result (A : Type) : Type :=
  | Ok (a : A)
  | Raise (e : exn)
  | OutOfFuel.

Arguments Ok {A} a.
Arguments Raise {A} e.
Arguments OutOfFuel {A}.

Global Instance result_ret : MRet result := λ A a, Ok a.

Global Instance result_bind : MBind result := λ A B f m,
  match m with
  | Ok a => f a
  | Raise e => Raise e
  | OutOfFuel => OutOfFuel
  end.

Global Instance result_fmap : FMap result := λ A B f m,
  match m with
  | Ok a => Ok (f a)
  | Raise e => Raise e
  | OutOfFuel => OutOfFuel
  end.

(** [assert cond, msg] *)
Definition py_assert (cond : bool) (msg : string) : result unit :=
  if cond then Ok tt else Raise (AssertionError msg).

(** ** The Python built-ins the module uses *)

(** [str(n)] for an integer is stdpp's [pretty]: decimal digits, a leading
    minus sign for negative numbers. *)
Definition str (n : Z) : string := pretty n.

Fixpoint string_repeat (c : ascii) (n : nat) : string :=
  match n with
  | O => EmptyString
  | S n' => String c (string_repeat c n')
  end.

(** The format specification [fill>width], as in [{1:0>2}]: the text is
    right-aligned in a field of [width] characters, padded on the left
    with [fill]; a longer text is left as it is. *)
Definition format_right (fill : ascii) (width : nat) (s : string) : string :=
  string_repeat fill (width - String.length s) +:+ s.

(** The month of a [datetime] value. *)
Inductive month_name : Type :=
  | January | February | March | April | May | June
  | July | August | September | October | November | December.

Definition month_of_Z (m : Z) : option month_name :=
  match m with
  | 1 => Some January | 2 => Some February | 3 => Some March
  | 4 => Some April | 5 => Some May | 6 => Some June
  | 7 => Some July | 8 => Some August | 9 => Some September
  | 10 => Some October | 11 => Some November | 12 => Some December
  | _ => None
  end.

Definition digit_of_ascii (c : ascii) : option Z :=
  let n := Z.of_N (N_of_ascii c) in
  if (48 <=? n) && (n <=? 57) then Some (n - 48) else None.

(** The directive [%m] of [strptime] is the regular expression
    [1[0-2]|0[1-9]|[1-9]]; the whole text has to be consumed. *)
Definition parse_m (s : string) : option Z :=
  match s with
  | String c EmptyString =>
      d ← digit_of_ascii c;
      if 1 <=? d then Some d else None
  | String c1 (String c2 EmptyString) =>
      d1 ← digit_of_ascii c1;
      d2 ← digit_of_ascii c2;
      if (d1 =? 1) && (d2 <=? 2) then Some (10 + d2)
      else if (d1 =? 0) && (1 <=? d2) then Some d2
      else None
  | _ => None
  end.

(** [dt.datetime.strptime(s, '%m')], of which only the month is used. *)
Definition strptime_m (s : string) : result month_name :=
  match parse_m s ≫= month_of_Z with
  | Some d => Ok d
  | None => Raise ValueError
  end.

(** [d.strftime('%B')]: the full month name (in the C locale). *)
Definition strftime_B (d : month_name) : string :=
  match d with
  | January => "January" | February => "February" | March => "March"
  | April => "April" | May => "May" | June => "June"
  | July => "July" | August => "August" | September => "September"
  | October => "October" | November => "November" | December => "December"
  end.

(** A string of one double quote. *)
Definition dquote : string := String (ascii_of_nat 34) EmptyString.

(** ** The world: files and standard output *)

(** A file is what the CSV reader sees of it: its lines in file order, each
    line the list of its fields; a blank line, which the reader passes
    over, has no field.  [isfile_calls] records the paths [os.path.isfile]
    was asked about, in the order of the calls. *)
Record world : Type := World {
  files : gmap string (list (list string));
  stdout : list string;
  isfile_calls : list string
}.

(** An effectful computation: it reads and changes the world and returns or
    raises.  What was printed before an exception stays printed. *)
Definition IO (A : Type) : Type := world → result A * world.

Global Instance IO_ret : MRet IO := λ A a w, (Ok a, w).

Global Instance IO_bind : MBind IO := λ A B f m w,
  match m w with
  | (Ok a, w') => f a w'
  | (Raise e, w') => (Raise e, w')
  | (OutOfFuel, w') => (OutOfFuel, w')
  end.

Definition lift {A : Type} (r : result A) : IO A := λ w, (r, w).

(** [print(line)] *)
Definition print (line : string) : IO unit := λ w,
  (Ok tt, World (files w) (stdout w ++ [line]) (isfile_calls w)).

(** [os.path.isfile(path)] *)
Definition isfile (path : string) : IO bool := λ w,
  (Ok (bool_decide (is_Some (files w !! path))),
   World (files w) (stdout w) (isfile_calls w ++ [path])).

(** [for x in xs: body(x)] *)
Fixpoint for_each {A : Type} (xs : list A) (body : A → IO unit) : IO unit :=
  match xs with
  | [] => mret tt
  | x :: xs' => _ ← body x; for_each xs' body
  end.

(** [l[i]] *)
Definition getitem {A : Type} (l : list A) (i : nat) : result A :=
  match l !! i with
  | Some x => Ok x
  | None => Raise IndexError
  end.

(** ** The part of pandas the loaders use

    The loaders hand the files to [pd.read_csv] and a column to
    [pd.to_datetime].  How the reader cuts a file into records and columns
    is written out below, for the arguments the loaders pass.  What value
    the reader makes of the text of a field (a missing value, a number, a
    text) and what date [to_datetime] reads from a value are left to a
    parameter, [library]. *)
Module pd.

(** What [to_datetime], with the format [%Y%m], makes of one value. *)
Inductive datetime_outcome : Type :=
  | Parsed (year month : Z)
  | Missing
  | Unparsed
  | OutOfBounds
  | WrongType.

(** The values of the cells, the value [read_value texts i text] that the
    reader gives to the text at row [i] of a column whose texts are
    [texts], and the reading of dates. *)
Record library : Type := Library {
  value : Type;
  read_value : list string → nat → string → value;
  strptime_Ym : value → datetime_outcome
}.

Section Frames.

Context (lib : library).

Inductive cell : Type :=
  | Value (v : value lib)
  | NaT
  | Timestamp (year month day : Z).

(** A data frame: the names of its columns and, for each name, the cells of
    the column from the first row to the last. *)
Record DataFrame : Type := {
  columns : list string;
  data : list (list cell)
}.

(** The cells of a column, from the texts of its fields. *)
Definition read_column (texts : list string) : list cell :=
  imap (λ i text, Value (read_value lib texts i text)) texts.

(** The field of a record at a position; a record that is too short is
    completed with empty fields. *)
Definition field (j : nat) (record : list string) : string :=
  nth j record "".

(** [pd.read_csv(..., names=names, skiprows=skiprows, index_col=False)] on
    the lines of a file.  The first [skiprows] lines are skipped, blank or
    not, then the blank lines.  Since [names] is given, no record is taken
    as a header: every record is data.  A record after the first one with
    more fields than the names and than the first record is an error.
    With [index_col=False] the columns are the first fields of the records,
    as many as there are names. *)
Definition parse_csv (lines : list (list string)) (names : list string)
    (skiprows : nat) : result DataFrame :=
  let records := filter (λ line, line ≠ []) (drop skiprows lines) in
  let expected :=
    Nat.max (length names) (length (default [] (head records))) in
  if forallb (λ record, Nat.leb (length record) expected) (tail records)
  then Ok {| columns := names;
             data := (λ j, read_column (field j <$> records))
                       <$> seq 0 (length names) |}
  else Raise ParserError.

Definition read_csv (path : string) (names : list string) (skiprows : nat)
  : IO DataFrame := λ w,
  match files w !! path with
  | Some lines => (parse_csv lines names skiprows, w)
  | None => (Raise (FileNotFoundError path), w)
  end.

Definition column_index (df : DataFrame) (name : string) : option nat :=
  fst <$> list_find (λ c, c = name) (columns df).

(** [df[name]] *)
Definition get_column (df : DataFrame) (name : string)
  : result (list cell) :=
  match column_index df name ≫= λ j, data df !! j with
  | Some column => Ok column
  | None => Raise (KeyError name)
  end.

(** [df[name] = values], for [values] as long as the frame. *)
Definition set_column (df : DataFrame) (name : string) (values : list cell)
  : DataFrame :=
  match column_index df name with
  | Some j =>
      {| columns := columns df; data := <[j:=values]> (data df) |}
  | None =>
      {| columns := columns df ++ [name]; data := data df ++ [values] |}
  end.

Definition to_datetime_cell (c : cell) : result cell :=
  match c with
  | Value v =>
      match strptime_Ym lib v with
      | Parsed y m => Ok (Timestamp y m 1)
      | Missing => Ok NaT
      | Unparsed => Raise ValueError
      | OutOfBounds => Raise OutOfBoundsDatetime
      | WrongType => Raise TypeError
      end
  | NaT => Ok NaT
  | Timestamp y m d => Ok (Timestamp y m d)
  end.

(** [pd.to_datetime(column, format='%Y%m')] *)
Definition to_datetime (column : list cell) : result (list cell) :=
  mapM to_datetime_cell column.

End Frames.

Arguments Value {lib} v.
Arguments NaT {lib}.
Arguments Timestamp {lib} year month day.
Arguments columns {lib} _.
Arguments data {lib} _.

(** *** A library of texts

    A library that keeps the text of every field as its value and reads
    dates from the texts.  It stands in for the library where a concrete one
    is needed. *)

Definition digits_value (cs : list ascii) : option Z :=
  foldl (λ acc c, n ← acc; d ← digit_of_ascii c; Some (10 * n + d))
        (Some 0) cs.

(** The format [%Y%m]: four digits, then a month as [%m] reads it. *)
Definition parse_Ym (s : string) : option (Z * Z) :=
  match s with
  | String a (String b (String c (String d rest))) =>
      y ← digits_value [a; b; c; d];
      m ← parse_m rest;
      Some (y, m)
  | _ => None
  end.

(** The first day of the month is within the range of a nanosecond
    [Timestamp], which runs from 1677-09-21 to 2262-04-11. *)
Definition in_bounds (y m : Z) : bool :=
  ((1677 <? y) || ((y =? 1677) && (10 <=? m)))
  && ((y <? 2262) || ((y =? 2262) && (m <=? 4))).

Definition text_library : library :=
  {| value := string;
     read_value := λ _ _ text, text;
     strptime_Ym := λ text,
       match parse_Ym text with
       | Some (y, m) => if in_bounds y m then Parsed y m else OutOfBounds
       | None => Unparsed
       end |}.

(** The cell of a text, in the library of texts. *)
Definition Text (text : string) : cell text_library :=
  @Value text_library text.

End pd.

(** ** Paths *)

Section Paths.

(** Root path where extracted data resides: a value of the module, set
    once; the source sets it to [./full_data/]. *)
Variable root_data_dir : string.

Definition year_msg : string :=
  "Year must be between 2010 and 3000 (inclusive)".

Definition month_msg : string :=
  "Months must be an integer between 1 and 12 (inclusive)".

Definition range_msg : string :=
  dquote +:+ "To" +:+ dquote +:+ " date must be before "
    +:+ dquote +:+ "from" +:+ dquote +:+ " date".

Definition validate_year (year : Z) : result unit :=
  py_assert ((year >=? 2010) && (year <=? 3000)) year_msg.

Definition validate_month (month : Z) : result unit :=
  py_assert ((month >? 0) && (month <? 13)) month_msg.

Definition get_file_path_prefix (year month : Z) : result string :=
  _ ← validate_year year;
  _ ← validate_month month;
  d ← strptime_m (str month);
  let data_dir :=
    str year +:+ "_" +:+ format_right "0" 2 (str month) +:+ "_"
      +:+ strftime_B d +:+ "/" in
  Ok (root_data_dir +:+ data_dir +:+ "T" +:+ str year
        +:+ format_right "0" 2 (str month)).

Definition get_address_data_filepath (year month : Z) : result string :=
  p ← get_file_path_prefix year month; Ok (p +:+ "ADDR BNFT.CSV").

Definition get_chems_data_filepath (year month : Z) : result string :=
  p ← get_file_path_prefix year month; Ok (p +:+ "CHEM SUBS.CSV").

Definition get_prescription_data_filepath (year month : Z) : result string :=
  p ← get_file_path_prefix year month; Ok (p +:+ "PDPI BNFT.CSV").

(** *** Paths of a range of months *)

(** The [while] loop of [get_data_filepath_prefixes], unrolled at most
    [fuel] times.  Its state is the list [filepaths] and the pair
    [current_year], [current_month]. *)
Fixpoint prefixes_loop (fuel : nat) (year_to month_to : Z)
    (filepaths : list string) (current_year current_month : Z)
  : result (list string) :=
  match fuel with
  | O => OutOfFuel
  | S fuel' =>
      if (current_year =? year_to) && (current_month =? month_to + 1)
      then Ok filepaths
      else
        match get_file_path_prefix current_year current_month with
        | Ok p =>
            let filepaths := filepaths ++ [p] in
            let current_month := current_month + 1 in
            if current_month >? 12
            then prefixes_loop fuel' year_to month_to filepaths
                   (current_year + 1) 1
            else prefixes_loop fuel' year_to month_to filepaths
                   current_year current_month
        | Raise e => Raise e
        | OutOfFuel => OutOfFuel
        end
  end.

(** A number of iterations no run of the loop exceeds: the year only grows
    and [validate_year] stops the loop once it has passed 3000. *)
Definition loop_bound (current_year current_month : Z) : nat :=
  S (Z.to_nat (12 * (3001 - current_year) + (12 - current_month))).

Definition get_data_filepath_prefixes
    (year_from month_from year_to month_to : Z) : result (list string) :=
  _ ← py_assert
        ((year_from <? year_to)
         || ((year_from =? year_to) && (month_from <=? month_to)))
        range_msg;
  prefixes_loop (loop_bound year_from month_from) year_to month_to []
    year_from month_from.

Definition get_address_data_filepaths
    (year_from month_from year_to month_to : Z) : result (list string) :=
  prefixes ← get_data_filepath_prefixes year_from month_from year_to month_to;
  Ok ((λ p, p +:+ "ADDR BNFT.CSV") <$> (prefixes : list string)).

Definition get_chems_data_filepaths
    (year_from month_from year_to month_to : Z) : result (list string) :=
  prefixes ← get_data_filepath_prefixes year_from month_from year_to month_to;
  Ok ((λ p, p +:+ "CHEM SUBS.CSV") <$> (prefixes : list string)).

Definition get_prescription_data_filepaths
    (year_from month_from year_to month_to : Z) : result (list string) :=
  prefixes ← get_data_filepath_prefixes year_from month_from year_to month_to;
  Ok ((λ p, p +:+ "PDPI BNFT.CSV") <$> (prefixes : list string)).

(** *** Loaders *)

(** The library the loaders call. *)
Variable lib : pd.library.

(** Return a data frame containing address data for specified month *)
Definition load_address_data (year month : Z) : IO (pd.DataFrame lib) :=
  address_data_filepath ← lift (get_address_data_filepath year month);
  let addresses_col_names :=
    ["Year-Month"; "PracticeCode"; "PracticeName"; "Addr1"; "Addr2";
     "Addr3"; "Addr4"; "PostCode"] in
  addresses ← pd.read_csv lib address_data_filepath addresses_col_names 0;
  column ← lift (pd.get_column lib addresses "Year-Month");
  dates ← lift (pd.to_datetime lib column);
  mret (pd.set_column lib addresses "Year-Month" dates).

(** Return a data frame containing chemicals data for specified month *)
Definition load_chems_data (year month : Z) : IO (pd.DataFrame lib) :=
  chems_data_filepath ← lift (get_chems_data_filepath year month);
  let chem_col_names := ["ChemCode"; "ChemName"] in
  pd.read_csv lib chems_data_filepath chem_col_names 1.

(** Return a data frame containing prescription data for specified month *)
Definition load_prescription_data (year month : Z)
  : IO (pd.DataFrame lib) :=
  prescription_data_filepath ←
    lift (get_prescription_data_filepath year month);
  let pxdata_col_names :=
    ["SHA"; "PCT"; "PracticeCode"; "BNFCode"; "BNFName";
     "LineCountDispensed"; "NetCost"; "ActualCost"; "QuantityDispensed";
     "Year-Month"] in
  pxdata ← pd.read_csv lib prescription_data_filepath pxdata_col_names 1;
  column ← lift (pd.get_column lib pxdata "Year-Month");
  dates ← lift (pd.to_datetime lib column);
  mret (pd.set_column lib pxdata "Year-Month" dates).

(** *** Existence of the files of a range *)

Definition file_check (filepath : string) : IO unit :=
  found ← isfile filepath;
  if negb found then print ("WARNING: File not found - " +:+ filepath)
  else mret tt.

(** Validate file existence for each data source for a given month *)
Definition check_data (year_from month_from year_to month_to : Z)
  : IO unit :=
  address_filepaths ←
    lift (get_address_data_filepaths year_from month_from year_to month_to);
  chems_filepaths ←
    lift (get_chems_data_filepaths year_from month_from year_to month_to);
  pxdata_filenames ←
    lift (get_prescription_data_filepaths
            year_from month_from year_to month_to);
  for_each (seq 0 (length address_filepaths)) (λ i,
    a ← lift (getitem address_filepaths i);
    _ ← file_check a;
    c ← lift (getitem chems_filepaths i);
    _ ← file_check c;
    p ← lift (getitem pxdata_filenames i);
    file_check p).

End Paths.


(** The value the source gives to [root_data_dir]. *)
Definition configured_root_data_dir : string := "./full_data/".

(** ** The specification's view

    These definitions follow the words of the specification, not the code:
    the theorems below compare the functions above to them. *)

Definition digit_char (d : Z) : ascii := ascii_of_N (Z.to_N (48 + d)).

(** A number below 100 written with two digits, zero-padded. *)
Definition two_digits (n : Z) : string :=
  String (digit_char (n `div` 10)) (String (digit_char (n `mod` 10)) "").

(** A year written with its four digits. *)
Definition four_digits (n : Z) : string :=
  String (digit_char (n `div` 1000))
    (String (digit_char ((n `div` 100) `mod` 10))
       (two_digits (n `mod` 100))).

Definition english_month_name (month : Z) : string :=
  match month with
  | 1 => "January" | 2 => "February" | 3 => "March" | 4 => "April"
  | 5 => "May" | 6 => "June" | 7 => "July" | 8 => "August"
  | 9 => "September" | 10 => "October" | 11 => "November"
  | 12 => "December"
  | _ => ""
  end.

(** [<year>_<MM>_<MonthName>] *)
Definition month_directory (year month : Z) : string :=
  four_digits year +:+ "_" +:+ two_digits month +:+ "_"
    +:+ english_month_name month.

(** [T<year><MM>] *)
Definition file_stem (year month : Z) : string :=
  "T" +:+ four_digits year +:+ two_digits month.

(** The month directory and the file stem, as they follow the root. *)
Definition prefix_tail (year month : Z) : string :=
  month_directory year month +:+ "/" +:+ file_stem year month.

(** [<root>/<year>_<MM>_<MonthName>/T<year><MM>] *)
Definition prefix_form (root : string) (year month : Z) : string :=
  root +:+ "/" +:+ prefix_tail year month.

(** A DateMonth of the data model. *)
Definition valid_date_month (year month : Z) : Prop :=
  2010 <= year <= 3000 ∧ 1 <= month <= 12.

(** Calendar order: year first, then month. *)
Definition strictly_after (year1 month1 year2 month2 : Z) : Prop :=
  year2 < year1 ∨ (year1 = year2 ∧ month2 < month1).

Definition not_after (year1 month1 year2 month2 : Z) : Prop :=
  year1 < year2 ∨ (year1 = year2 ∧ month1 <= month2).

(** The calendar months from one DateMonth to another, both included, in
    calendar order: months are counted from year 0, twelve to a year. *)
Definition month_index (year month : Z) : Z := 12 * year + (month - 1).

Definition month_of_index (i : Z) : Z * Z := (i `div` 12, i `mod` 12 + 1).

Definition months_between (year_from month_from year_to month_to : Z)
  : list (Z * Z) :=
  month_of_index <$>
    seqZ (month_index year_from month_from)
         (month_index year_to month_to - month_index year_from month_from + 1).

(** The prefix the specification gives to a month under the root value. *)
Definition prefix_of_month (root : string) (ym : Z * Z) : string :=
  root +:+ prefix_tail ym.1 ym.2.

(** The three files of a prefix, in the order address, chemicals,
    prescriptions. *)
Definition files_of_prefix (prefix : string) : list string :=
  [prefix +:+ "ADDR BNFT.CSV"; prefix +:+ "CHEM SUBS.CSV";
   prefix +:+ "PDPI BNFT.CSV"].

Definition files_of_month (root : string) (ym : Z * Z) : list string :=
  files_of_prefix (prefix_of_month root ym).

(** The files of a list of months: month after month, three files each. *)
Definition files_of_months (root : string) (months : list (Z * Z))
  : list string :=
  months ≫= files_of_month root.

Definition missing (fs : gmap string (list (list string))) (path : string)
  : Prop :=
  fs !! path = None.

Global Instance missing_dec fs path : Decision (missing fs path).
Proof. unfold missing. apply _. Defined.

Definition warning (path : string) : string :=
  "WARNING: File not found - " +:+ path.

(** The warnings for the missing files among [paths], one for each, in the
    order of [paths]. *)
Definition warnings_for (fs : gmap string (list (list string)))
    (paths : list string) : list string :=
  warning <$> filter (missing fs) paths.

(** The world after [paths] were examined one after the other: each was
    asked about once, each missing one was warned about once. *)
Definition examine (w : world) (paths : list string) : world :=
  World (files w) (stdout w ++ warnings_for (files w) paths)
        (isfile_calls w ++ paths).

(** A world with the files of November and December 2013, the address file
    of November apart. *)
Definition december_world : world :=
  World
    (list_to_map
       ((λ path, (path, [])) <$>
          ["./full_data/2013_11_November/T201311CHEM SUBS.CSV";
           "./full_data/2013_11_November/T201311PDPI BNFT.CSV";
           "./full_data/2013_12_December/T201312ADDR BNFT.CSV";
           "./full_data/2013_12_December/T201312CHEM SUBS.CSV";
           "./full_data/2013_12_December/T201312PDPI BNFT.CSV"]))
    [] [].

(** A row of a well-formed address file: the year and the month of its
    first field, written [YYYYMM], and the seven fields that follow. *)
Record address_row : Type := {
  row_year : Z;
  row_month : Z;
  row_rest : list string
}.

Definition well_formed_address_row (r : address_row) : Prop :=
  1678 <= row_year r <= 2261 ∧ 1 <= row_month r <= 12
  ∧ length (row_rest r) = 7%nat.

Definition year_month_field (r : address_row) : string :=
  four_digits (row_year r) +:+ two_digits (row_month r).

(** The fields of the row in the file. *)
Definition address_fields (r : address_row) : list string :=
  year_month_field r :: row_rest r.

(** The text [YYYYMM] of a year and a month. *)
Definition year_month_text (ym : Z * Z) : string :=
  four_digits ym.1 +:+ two_digits ym.2.

(** What the loaders of dates take from the library: in a column whose
    fields are years and months written [YYYYMM], for months that a
    [Timestamp] holds, [to_datetime] reads from the value of every field
    its year and its month. *)
Definition reads_dates (lib : pd.library) : Prop :=
  ∀ (months : list (Z * Z)) (i : nat) (ym : Z * Z),
    Forall (λ ym, 1678 <= ym.1 <= 2261 ∧ 1 <= ym.2 <= 12) months →
    months !! i = Some ym →
    pd.strptime_Ym lib
      (pd.read_value lib (year_month_text <$> months) i (year_month_text ym))
    = pd.Parsed ym.1 ym.2.

(** The first day of each month of a list, as a column. *)
Definition first_days {lib : pd.library} (months : list (Z * Z))
  : list (pd.cell lib) :=
  (λ ym, pd.Timestamp ym.1 ym.2 1) <$> months.

(** The columns of the AddressRecords of the rows: the first days of the
    months of the rows, then, for each of the seven other positions, what
    the library reads from the fields of the rows at that position. *)
Definition address_columns (lib : pd.library) (rs : list address_row)
  : list (list (pd.cell lib)) :=
  first_days ((λ r, (row_year r, row_month r)) <$> rs)
  :: ((λ j, pd.read_column lib ((λ r, nth j (row_rest r) "") <$> rs))
        <$> seq 0 7).

(** The data rows among the lines of a file: those that are not blank. *)
Definition data_rows (lines : list (list string)) : list (list string) :=
  filter (λ line, line ≠ []) lines.

(** Records the reader takes without an error: none after the first has
    more fields than both [width], the number of names, and the first
    record. *)
Definition regular_records (width : nat) (records : list (list string))
  : Prop :=
  Forall
    (λ record,
       (length record
        <= Nat.max width (length (default [] (head records))))%nat)
    (tail records).

(** The columns of the ChemicalRecords of the records: what the library
    reads from their first fields, and from their second fields. *)
Definition chemical_columns (lib : pd.library) (records : list (list string))
  : list (list (pd.cell lib)) :=
  [pd.read_column lib (pd.field 0 <$> records);
   pd.read_column lib (pd.field 1 <$> records)].

(** A world with an address file of two rows and a chemicals file of a
    header and three rows, for April 2013. *)
Definition april_world : world :=
  World
    (list_to_map
       [("./full_data/2013_04_April/T201304ADDR BNFT.CSV",
         [["201304"; "A81001"; "THE DENSHAM SURGERY"; "THE HEALTH CENTRE";
           "LAWSON STREET"; "STOCKTON"; "CLEVELAND"; "TS18 1HU"];
          ["201304"; "A81002"; "QUEENS PARK MEDICAL CENTRE";
           "QUEENS PARK MEDICAL CTR"; "FARRER STREET"; "STOCKTON ON TEES";
           "CLEVELAND"; "TS18 2AW"]]);
        ("./full_data/2013_04_April/T201304CHEM SUBS.CSV",
         [["CHEM SUB"; "NAME"; "201304"];
          ["0101010A0"; "Alexitol Sodium"];
          ["0101010B0"; "Almasilate"];
          ["0101010C0"; "Aluminium Hydroxide"]])])
    [] [].

(** A row of a well-formed prescription file: nine fields, then the
    period written [YYYYMM]. *)
Record prescription_row : Type := {
  px_fields : list string;
  px_year : Z;
  px_month : Z
}.

Definition well_formed_prescription_row (r : prescription_row) : Prop :=
  length (px_fields r) = 9%nat
  ∧ 1678 <= px_year r <= 2261 ∧ 1 <= px_month r <= 12.

Definition period_field (r : prescription_row) : string :=
  four_digits (px_year r) +:+ two_digits (px_month r).

(** The fields of the row in the file. *)
Definition prescription_fields (r : prescription_row) : list string :=
  px_fields r ++ [period_field r].

(** The columns of the PrescriptionRecords of the rows: for each of the
    nine first positions, what the library reads from the fields of the
    rows at that position, then the first days of the months of the
    periods. *)
Definition prescription_columns (lib : pd.library)
    (rs : list prescription_row) : list (list (pd.cell lib)) :=
  ((λ j, pd.read_column lib ((λ r, nth j (px_fields r) "") <$> rs))
     <$> seq 0 9)
  ++ [first_days ((λ r, (px_year r, px_month r)) <$> rs)].

(** A world with a prescription file of a header and two rows, for May
    2013. *)
Definition may_world : world :=
  World
    (list_to_map
       [("./full_data/2013_05_May/T201305PDPI BNFT.CSV",
         [["SHA"; "PCT"; "PRACTICE"; "BNF CODE"; "BNF NAME"; "ITEMS"; "NIC";
           "ACT COST"; "QUANTITY"; "PERIOD"];
          ["Q30"; "5D7"; "A86003"; "0101010G0AAABAB"; "Co-Magaldrox_Susp";
           "2"; "5.98"; "5.56"; "1000"; "201305"];
          ["Q30"; "5D7"; "A86003"; "0101021B0AAAHAH"; "Alginate_Raft-Forming";
           "1"; "5.12"; "4.76"; "500"; "201305"]])])
    [] [].

(** A world with the three files of April 2013. *)
Definition complete_world : world :=
  World
    (list_to_map
       [("./full_data/2013_04_April/T201304ADDR BNFT.CSV",
         [["201304"; "A81001"; "THE DENSHAM SURGERY"; "THE HEALTH CENTRE";
           "LAWSON STREET"; "STOCKTON"; "CLEVELAND"; "TS18 1HU"]]);
        ("./full_data/2013_04_April/T201304CHEM SUBS.CSV",
         [["CHEM SUB"; "NAME"; "201304"];
          ["0101010A0"; "Alexitol Sodium"]]);
        ("./full_data/2013_04_April/T201304PDPI BNFT.CSV",
         [["SHA"; "PCT"; "PRACTICE"; "BNF CODE"; "BNF NAME"; "ITEMS"; "NIC";
           "ACT COST"; "QUANTITY"; "PERIOD"];
          ["Q30"; "5D7"; "A86003"; "0101010G0AAABAB"; "Co-Magaldrox_Susp";
           "2"; "5.98"; "5.56"; "1000"; "201304"]])])
    [] [].

(** ** Facts on the built-ins *)

Lemma forallb_seqZ (P : Z → bool) (lo n : Z) :
  forallb P (seqZ lo n) = true → ∀ z, lo <= z < lo + n → P z = true.
Proof.
  intros H z Hz. rewrite forallb_forall in H. apply H.
  apply list_elem_of_In, elem_of_seqZ. exact Hz.
Qed.

Lemma string_app_assoc (s1 s2 s3 : string) :
  (s1 +:+ s2) +:+ s3 = s1 +:+ s2 +:+ s3.
Proof.
  induction s1 as [|c s1 IH]; [reflexivity |].
  change (String c ((s1 +:+ s2) +:+ s3) = String c (s1 +:+ s2 +:+ s3)).
  by rewrite IH.
Qed.

Lemma month_cases (month : Z) :
  1 <= month <= 12 →
  month = 1 ∨ month = 2 ∨ month = 3 ∨ month = 4 ∨ month = 5 ∨ month = 6
  ∨ month = 7 ∨ month = 8 ∨ month = 9 ∨ month = 10 ∨ month = 11
  ∨ month = 12.
Proof. lia. Qed.

Ltac month_cases m H :=
  destruct (month_cases m H)
    as [->|[->|[->|[->|[->|[->|[->|[->|[->|[->|[->| ->]]]]]]]]]]].

Lemma str_month (month : Z) :
  1 <= month <= 12 → format_right "0" 2 (str month) = two_digits month.
Proof. intros H. month_cases month H; reflexivity. Qed.

Lemma strptime_month (month : Z) :
  1 <= month <= 12 →
  ∃ d, strptime_m (str month) = Ok d
       ∧ strftime_B d = english_month_name month.
Proof. intros H. month_cases month H; eexists; split; reflexivity. Qed.

Lemma str_year (year : Z) :
  2010 <= year <= 3000 → str year = four_digits year.
Proof.
  intros H.
  assert (String.eqb (str year) (four_digits year) = true) as Heq.
  { apply (forallb_seqZ (λ y, String.eqb (str y) (four_digits y)) 2010 991);
      [vm_compute; reflexivity | lia]. }
  by apply String.eqb_eq.
Qed.

(** ** The prefix of one month *)

Lemma validate_year_ok (year : Z) :
  2010 <= year <= 3000 → validate_year year = Ok tt.
Proof.
  intros H. unfold validate_year.
  replace ((year >=? 2010) && (year <=? 3000)) with true; [done |].
  symmetry. apply andb_true_iff. lia.
Qed.

Lemma validate_year_fail (year : Z) :
  year < 2010 ∨ 3000 < year →
  validate_year year = Raise (AssertionError year_msg).
Proof.
  intros H. unfold validate_year.
  replace ((year >=? 2010) && (year <=? 3000)) with false; [done |].
  symmetry. apply andb_false_iff. lia.
Qed.

Lemma validate_month_ok (month : Z) :
  1 <= month <= 12 → validate_month month = Ok tt.
Proof.
  intros H. unfold validate_month.
  replace ((month >? 0) && (month <? 13)) with true; [done |].
  symmetry. apply andb_true_iff. lia.
Qed.

Lemma validate_month_fail (month : Z) :
  month < 1 ∨ 12 < month →
  validate_month month = Raise (AssertionError month_msg).
Proof.
  intros H. unfold validate_month.
  replace ((month >? 0) && (month <? 13)) with false; [done |].
  symmetry. apply andb_false_iff. lia.
Qed.

(** On a valid DateMonth the prefix is the root followed by the month
    directory, a slash and the file stem. *)
Lemma get_file_path_prefix_valid (root : string) (year month : Z) :
  valid_date_month year month →
  get_file_path_prefix root year month
  = Ok (root +:+ prefix_tail year month).
Proof.
  intros [Hy Hm]. unfold get_file_path_prefix.
  rewrite (validate_year_ok _ Hy), (validate_month_ok _ Hm).
  destruct (strptime_month month Hm) as (d & Hd & Hname).
  cbn [mbind result_bind]. rewrite Hd. cbn [mbind result_bind].
  rewrite (str_year _ Hy), (str_month _ Hm), Hname.
  unfold prefix_tail, month_directory, file_stem.
  by rewrite !string_app_assoc.
Qed.

Lemma get_file_path_prefix_year_fail (root : string) (year month : Z) :
  year < 2010 ∨ 3000 < year →
  get_file_path_prefix root year month = Raise (AssertionError year_msg).
Proof.
  intros H. unfold get_file_path_prefix.
  by rewrite (validate_year_fail _ H).
Qed.

Lemma get_file_path_prefix_month_fail (root : string) (year month : Z) :
  2010 <= year <= 3000 → month < 1 ∨ 12 < month →
  get_file_path_prefix root year month = Raise (AssertionError month_msg).
Proof.
  intros Hy H. unfold get_file_path_prefix.
  by rewrite (validate_year_ok _ Hy), (validate_month_fail _ H).
Qed.

(** The three outcomes of [get_file_path_prefix]. *)
Lemma get_file_path_prefix_cases (root : string) (year month : Z) :
  (valid_date_month year month
   ∧ get_file_path_prefix root year month
     = Ok (root +:+ prefix_tail year month))
  ∨ ((year < 2010 ∨ 3000 < year)
     ∧ get_file_path_prefix root year month
       = Raise (AssertionError year_msg))
  ∨ (2010 <= year <= 3000 ∧ (month < 1 ∨ 12 < month)
     ∧ get_file_path_prefix root year month
       = Raise (AssertionError month_msg)).
Proof.
  destruct (decide (2010 <= year <= 3000)) as [Hy|Hy].
  - destruct (decide (1 <= month <= 12)) as [Hm|Hm].
    + left. split; [done |]. by apply get_file_path_prefix_valid.
    + right. right. split; [done |].
      assert (month < 1 ∨ 12 < month) as Hm' by lia.
      split; [done |]. by apply get_file_path_prefix_month_fail.
  - right. left. assert (year < 2010 ∨ 3000 < year) as Hy' by lia.
    split; [done |]. by apply get_file_path_prefix_year_fail.
Qed.

Lemma month_directory_head (year month : Z) :
  2010 <= year <= 3000 →
  ∃ d rest, month_directory year month = String d rest ∧ d ≠ "/"%char.
Proof.
  intros Hy. unfold month_directory, four_digits.
  eexists _, _. split; [reflexivity |].
  assert (year `div` 1000 = 2 ∨ year `div` 1000 = 3) as [-> | ->]
    by (Z.div_mod_to_equations; lia); discriminate.
Qed.

(** C3. For every year in 2010..3000 and month in 1..12, the prefix under
    the root directory [dir] (the module's root is the directory followed
    by a slash, as the source configures it) is
    [dir/<year>_<MM>_<MonthName>/T<year><MM>], with the month written with
    two digits and the full English month name. *)
Theorem get_file_path_prefix_form (dir : string) (year month : Z) :
  2010 <= year <= 3000 → 1 <= month <= 12 →
  get_file_path_prefix (dir +:+ "/") year month
  = Ok (prefix_form dir year month).
Proof.
  intros Hy Hm. rewrite get_file_path_prefix_valid by done.
  unfold prefix_form. by rewrite string_app_assoc.
Qed.

Lemma get_file_path_prefix_form_witness :
  get_file_path_prefix configured_root_data_dir 2013 4
  = Ok "./full_data/2013_04_April/T201304".
Proof. apply (get_file_path_prefix_form "./full_data" 2013 4); lia. Defined.

(** C4. The prefix fails exactly when the year is below 2010 or above
    3000 or the month is below 1 or above 12; the failure is the assertion
    of the year with its message when the year is out of bounds, and the
    assertion of the month with its message otherwise. *)
Theorem get_file_path_prefix_validation (root : string) (year month : Z) :
  ((∃ e, get_file_path_prefix root year month = Raise e)
   ↔ (year < 2010 ∨ 3000 < year ∨ month < 1 ∨ 12 < month))
  ∧ ((∃ p, get_file_path_prefix root year month = Ok p)
     ↔ (2010 <= year <= 3000 ∧ 1 <= month <= 12))
  ∧ (year < 2010 ∨ 3000 < year →
     get_file_path_prefix root year month
     = Raise (AssertionError year_msg))
  ∧ (2010 <= year <= 3000 → month < 1 ∨ 12 < month →
     get_file_path_prefix root year month
     = Raise (AssertionError month_msg)).
Proof.
  split; [| split; [| split]].
  - destruct (get_file_path_prefix_cases root year month)
      as [[[Hy Hm] ->] | [[Hy ->] | (Hy & Hm & ->)]].
    + split; [intros [e He]; discriminate | lia].
    + split; [lia | eauto].
    + split; [lia | eauto].
  - destruct (get_file_path_prefix_cases root year month)
      as [[[Hy Hm] ->] | [[Hy ->] | (Hy & Hm & ->)]].
    + split; [done | eauto].
    + split; [intros [p Hp]; discriminate | lia].
    + split; [intros [p Hp]; discriminate | lia].
  - apply get_file_path_prefix_year_fail.
  - apply get_file_path_prefix_month_fail.
Qed.

Lemma get_file_path_prefix_validation_witness :
  get_file_path_prefix configured_root_data_dir 2009 4
  = Raise (AssertionError year_msg)
  ∧ get_file_path_prefix configured_root_data_dir 3001 4
    = Raise (AssertionError year_msg)
  ∧ get_file_path_prefix configured_root_data_dir 2013 0
    = Raise (AssertionError month_msg)
  ∧ get_file_path_prefix configured_root_data_dir 2013 13
    = Raise (AssertionError month_msg).
Proof.
  split; [| split; [| split]].
  - apply (get_file_path_prefix_validation configured_root_data_dir 2009 4).
    lia.
  - apply (get_file_path_prefix_validation configured_root_data_dir 3001 4).
    lia.
  - apply (get_file_path_prefix_validation configured_root_data_dir 2013 0);
      lia.
  - apply (get_file_path_prefix_validation configured_root_data_dir 2013 13);
      lia.
Defined.

(** C9. On a valid DateMonth the prefix is the root value, as it is,
    followed at once by the name of the month directory, which starts with
    a digit.  Nothing is put between the two: when the root does not end
    with a slash, its last character and the first digit of the directory
    name are neighbours in the path, in one segment. *)
Theorem get_file_path_prefix_root_verbatim (root : string) (year month : Z) :
  2010 <= year <= 3000 → 1 <= month <= 12 →
  get_file_path_prefix root year month
  = Ok (root +:+ month_directory year month +:+ "/" +:+ file_stem year month)
  ∧ (∃ d rest, month_directory year month = String d rest ∧ d ≠ "/"%char)
  ∧ (∀ r c, root = r +:+ String c "" → c ≠ "/"%char →
       ∃ d rest,
         get_file_path_prefix root year month
         = Ok (r +:+ String c (String d rest))
         ∧ d ≠ "/"%char).
Proof.
  intros Hy Hm.
  assert (get_file_path_prefix root year month
          = Ok (root +:+ month_directory year month +:+ "/"
                  +:+ file_stem year month)) as Hprefix
    by (by apply get_file_path_prefix_valid).
  destruct (month_directory_head year month Hy) as (d & rest & Hdir & Hd).
  split; [done |]. split; [by eauto |].
  intros r c -> Hc. exists d, (rest +:+ "/" +:+ file_stem year month).
  split; [| done]. rewrite Hprefix, Hdir.
  by rewrite string_app_assoc.
Qed.

Lemma get_file_path_prefix_root_verbatim_witness :
  get_file_path_prefix "./full_data" 2013 4
  = Ok "./full_data2013_04_April/T201304".
Proof.
  apply (get_file_path_prefix_root_verbatim "./full_data" 2013 4); lia.
Defined.

(** ** The prefixes of a range of months *)

Section Range.

Context (root : string) (year_to month_to : Z).

(** The loop, unrolled once. *)
Lemma prefixes_loop_S
    (fuel : nat) (filepaths : list string) (current_year current_month : Z) :
  prefixes_loop root (S fuel) year_to month_to filepaths
    current_year current_month
  = if (current_year =? year_to) && (current_month =? month_to + 1)
    then Ok filepaths
    else
      match get_file_path_prefix root current_year current_month with
      | Ok p =>
          if current_month + 1 >? 12
          then prefixes_loop root fuel year_to month_to (filepaths ++ [p])
                 (current_year + 1) 1
          else prefixes_loop root fuel year_to month_to (filepaths ++ [p])
                 current_year (current_month + 1)
      | Raise e => Raise e
      | OutOfFuel => OutOfFuel
      end.
Proof. reflexivity. Qed.

Lemma prefixes_loop_exit (fuel : nat) (filepaths : list string) :
  prefixes_loop root (S fuel) year_to month_to filepaths
    year_to (month_to + 1)
  = Ok filepaths.
Proof. rewrite prefixes_loop_S. by rewrite !Z.eqb_refl. Qed.

Lemma exit_test_false (current_year current_month : Z) :
  ¬ (current_year = year_to ∧ current_month = month_to + 1) →
  (current_year =? year_to) && (current_month =? month_to + 1) = false.
Proof. intros H. apply andb_false_iff. lia. Qed.

(** One iteration that stays within the year. *)
Lemma prefixes_loop_next_month
    (fuel : nat) (filepaths : list string) (current_year current_month : Z) :
  2010 <= current_year <= 3000 → 1 <= current_month < 12 →
  ¬ (current_year = year_to ∧ current_month = month_to + 1) →
  prefixes_loop root (S fuel) year_to month_to filepaths
    current_year current_month
  = prefixes_loop root fuel year_to month_to
      (filepaths ++ [prefix_of_month root (current_year, current_month)])
      current_year (current_month + 1).
Proof.
  intros Hy Hm Hexit. rewrite prefixes_loop_S, exit_test_false by done.
  rewrite get_file_path_prefix_valid by (split; lia).
  replace (current_month + 1 >? 12) with false by lia. done.
Qed.

(** One iteration from December: the month wraps and the year is carried. *)
Lemma prefixes_loop_next_year
    (fuel : nat) (filepaths : list string) (current_year : Z) :
  2010 <= current_year <= 3000 →
  ¬ (current_year = year_to ∧ 12 = month_to + 1) →
  prefixes_loop root (S fuel) year_to month_to filepaths current_year 12
  = prefixes_loop root fuel year_to month_to
      (filepaths ++ [prefix_of_month root (current_year, 12)])
      (current_year + 1) 1.
Proof.
  intros Hy Hexit. rewrite prefixes_loop_S, exit_test_false by done.
  by rewrite get_file_path_prefix_valid by (split; lia).
Qed.

(** An iteration on a year out of bounds raises. *)
Lemma prefixes_loop_year_fail
    (fuel : nat) (filepaths : list string) (current_year current_month : Z) :
  current_year < 2010 ∨ 3000 < current_year →
  ¬ (current_year = year_to ∧ current_month = month_to + 1) →
  prefixes_loop root (S fuel) year_to month_to filepaths
    current_year current_month
  = Raise (AssertionError year_msg).
Proof.
  intros Hy Hexit. rewrite prefixes_loop_S, exit_test_false by done.
  by rewrite get_file_path_prefix_year_fail.
Qed.

(** The bound is enough: the loop never runs out of fuel. *)
Lemma prefixes_loop_bound_enough
    (fuel : nat) (filepaths : list string) (current_year current_month : Z) :
  (loop_bound current_year current_month <= fuel)%nat →
  prefixes_loop root fuel year_to month_to filepaths
    current_year current_month
  ≠ OutOfFuel.
Proof.
  revert filepaths current_year current_month.
  induction fuel as [|fuel IH]; intros filepaths cy cm Hfuel.
  { unfold loop_bound in Hfuel. lia. }
  destruct (decide (cy = year_to ∧ cm = month_to + 1)) as [[-> ->]|Hexit].
  { by rewrite prefixes_loop_exit. }
  destruct (get_file_path_prefix_cases root cy cm)
    as [[[Hy Hm] _] | [[Hy Hfail] | (Hy & Hm & Hfail)]].
  - unfold loop_bound in Hfuel.
    destruct (decide (cm = 12)) as [-> | Hm12].
    + rewrite prefixes_loop_next_year by done.
      apply IH. unfold loop_bound. lia.
    + rewrite prefixes_loop_next_month by (done || lia).
      apply IH. unfold loop_bound. lia.
  - by rewrite prefixes_loop_year_fail.
  - rewrite prefixes_loop_S, exit_test_false by done. by rewrite Hfail.
Qed.

(** More fuel does not change an outcome that was reached. *)
Lemma prefixes_loop_more_fuel
    (fuel extra : nat) (filepaths : list string)
    (current_year current_month : Z) :
  prefixes_loop root fuel year_to month_to filepaths
    current_year current_month ≠ OutOfFuel →
  prefixes_loop root (fuel + extra) year_to month_to filepaths
    current_year current_month
  = prefixes_loop root fuel year_to month_to filepaths
      current_year current_month.
Proof.
  revert filepaths current_year current_month.
  induction fuel as [|fuel IH]; intros filepaths cy cm Hrun; [done |].
  change (S fuel + extra)%nat with (S (fuel + extra)).
  rewrite !prefixes_loop_S in *.
  destruct ((cy =? year_to) && (cm =? month_to + 1)); [done |].
  destruct (get_file_path_prefix root cy cm); [| done | done].
  destruct (cm + 1 >? 12); by apply IH.
Qed.

(** The loop raises nothing but the two validation errors. *)
Lemma prefixes_loop_raises
    (fuel : nat) (filepaths : list string) (current_year current_month : Z)
    (e : exn) :
  prefixes_loop root fuel year_to month_to filepaths
    current_year current_month = Raise e →
  e = AssertionError year_msg ∨ e = AssertionError month_msg.
Proof.
  revert filepaths current_year current_month.
  induction fuel as [|fuel IH]; intros filepaths cy cm Hrun; [done |].
  rewrite prefixes_loop_S in Hrun.
  destruct ((cy =? year_to) && (cm =? month_to + 1)); [done |].
  destruct (get_file_path_prefix_cases root cy cm)
    as [[_ Hp] | [[_ Hp] | (_ & _ & Hp)]]; rewrite Hp in Hrun.
  - destruct (cm + 1 >? 12); by eapply IH.
  - left. congruence.
  - right. congruence.
Qed.

Lemma month_of_index_month_index (year month : Z) :
  1 <= month <= 12 → month_of_index (month_index year month) = (year, month).
Proof.
  intros Hm. unfold month_of_index, month_index.
  f_equal; Z.div_mod_to_equations; lia.
Qed.

(** When the month after [month_to] exists, the loop appends one prefix for
    each of the [n] months that separate its state from the exit. *)
Lemma prefixes_loop_months (n : nat) :
  ∀ (fuel : nat) (filepaths : list string) (current_year current_month : Z),
    2010 <= current_year → year_to <= 3000 →
    1 <= current_month <= 12 → 1 <= month_to <= 11 →
    month_index year_to month_to + 1 - month_index current_year current_month
    = Z.of_nat n →
    (n < fuel)%nat →
    prefixes_loop root fuel year_to month_to filepaths
      current_year current_month
    = Ok (filepaths ++
            (prefix_of_month root <$>
               (month_of_index <$>
                  seqZ (month_index current_year current_month)
                       (Z.of_nat n)))).
Proof.
  unfold month_index.
  induction n as [|n IH]; intros fuel filepaths cy cm Hcy Hyt Hcm Hmt Hn Hfuel;
    (destruct fuel as [|fuel]; [lia |]).
  - assert (cy = year_to ∧ cm = month_to + 1) as [-> ->] by lia.
    rewrite prefixes_loop_exit. by rewrite seqZ_nil, app_nil_r by lia.
  - rewrite seqZ_cons by lia. rewrite !fmap_cons.
    change (12 * cy + (cm - 1)) with (month_index cy cm).
    rewrite month_of_index_month_index by done. unfold month_index.
    replace (Z.pred (Z.of_nat (S n))) with (Z.of_nat n) by lia.
    destruct (decide (cm = 12)) as [-> | Hm12].
    + rewrite prefixes_loop_next_year by lia.
      rewrite IH by lia.
      replace (Z.succ (12 * cy + (12 - 1))) with (12 * (cy + 1) + (1 - 1))
        by lia.
      by rewrite <- app_assoc.
    + rewrite prefixes_loop_next_month by lia.
      rewrite IH by lia.
      replace (Z.succ (12 * cy + (cm - 1))) with (12 * cy + (cm + 1 - 1))
        by lia.
      by rewrite <- app_assoc.
Qed.

(** When [month_to] is December, the exit test compares the month with 13,
    which the wrapped month never is: the loop runs on, year after year,
    until [validate_year] stops it after the year 3000. *)
Lemma prefixes_loop_december (n : nat) :
  ∀ (fuel : nat) (filepaths : list string) (current_year current_month : Z),
    month_to = 12 →
    2010 <= current_year <= 3000 → 1 <= current_month <= 12 →
    12 * (3000 - current_year) + (12 - current_month) = Z.of_nat n →
    (n + 2 <= fuel)%nat →
    prefixes_loop root fuel year_to month_to filepaths
      current_year current_month
    = Raise (AssertionError year_msg).
Proof.
  induction n as [|n IH]; intros fuel filepaths cy cm Hmt Hcy Hcm Hn Hfuel;
    (destruct fuel as [|fuel]; [lia |]).
  - assert (cy = 3000 ∧ cm = 12) as [-> ->] by lia.
    rewrite prefixes_loop_next_year by lia.
    destruct fuel as [|fuel]; [lia |].
    rewrite prefixes_loop_year_fail by lia. done.
  - destruct (decide (cm = 12)) as [-> | Hm12].
    + rewrite prefixes_loop_next_year by lia. apply IH; lia.
    + rewrite prefixes_loop_next_month by lia. apply IH; lia.
Qed.

End Range.

Lemma range_test_true (year_from month_from year_to month_to : Z) :
  not_after year_from month_from year_to month_to →
  (year_from <? year_to)
  || ((year_from =? year_to) && (month_from <=? month_to)) = true.
Proof.
  unfold not_after. intros H.
  apply orb_true_iff. rewrite andb_true_iff. lia.
Qed.

Lemma range_test_false (year_from month_from year_to month_to : Z) :
  strictly_after year_from month_from year_to month_to →
  (year_from <? year_to)
  || ((year_from =? year_to) && (month_from <=? month_to)) = false.
Proof.
  unfold strictly_after. intros H.
  apply orb_false_iff. rewrite andb_false_iff. lia.
Qed.

Lemma not_after_or_strictly_after (year1 month1 year2 month2 : Z) :
  not_after year1 month1 year2 month2
  ∨ strictly_after year1 month1 year2 month2.
Proof. unfold not_after, strictly_after. lia. Qed.

Lemma get_data_filepath_prefixes_not_after
    (root : string) (year_from month_from year_to month_to : Z) :
  not_after year_from month_from year_to month_to →
  get_data_filepath_prefixes root year_from month_from year_to month_to
  = prefixes_loop root (loop_bound year_from month_from) year_to month_to []
      year_from month_from.
Proof.
  intros H. unfold get_data_filepath_prefixes.
  by rewrite range_test_true.
Qed.

Lemma get_data_filepath_prefixes_strictly_after
    (root : string) (year_from month_from year_to month_to : Z) :
  strictly_after year_from month_from year_to month_to →
  get_data_filepath_prefixes root year_from month_from year_to month_to
  = Raise (AssertionError range_msg).
Proof.
  intros H. unfold get_data_filepath_prefixes.
  by rewrite range_test_false.
Qed.

(** The function is total: the bounded unrolling is always long enough. *)
Theorem get_data_filepath_prefixes_terminates
    (root : string) (year_from month_from year_to month_to : Z) :
  get_data_filepath_prefixes root year_from month_from year_to month_to
  ≠ OutOfFuel.
Proof.
  destruct (not_after_or_strictly_after year_from month_from year_to month_to)
    as [H | H].
  - rewrite get_data_filepath_prefixes_not_after by done.
    by apply prefixes_loop_bound_enough.
  - by rewrite get_data_filepath_prefixes_strictly_after.
Qed.

(** A range that does not end in December yields one prefix per month of
    the range, in calendar order. *)
Theorem get_data_filepath_prefixes_months
    (root : string) (year_from month_from year_to month_to : Z) :
  valid_date_month year_from month_from →
  valid_date_month year_to month_to →
  not_after year_from month_from year_to month_to →
  month_to ≠ 12 →
  get_data_filepath_prefixes root year_from month_from year_to month_to
  = Ok (prefix_of_month root <$>
          months_between year_from month_from year_to month_to).
Proof.
  intros [Hyf Hmf] [Hyt Hmt] Hrange Hdec.
  rewrite get_data_filepath_prefixes_not_after by done.
  unfold months_between, not_after, loop_bound, month_index in *.
  pose (n := Z.to_nat (12 * year_to + (month_to - 1)
                       - (12 * year_from + (month_from - 1)) + 1)).
  rewrite (prefixes_loop_months root year_to month_to n);
    unfold month_index; try lia.
  by replace (Z.of_nat n)
    with (12 * year_to + (month_to - 1)
          - (12 * year_from + (month_from - 1)) + 1) by lia.
Qed.

(** A range that ends in December raises the assertion of the year. *)
Lemma get_data_filepath_prefixes_december
    (root : string) (year_from month_from year_to : Z) :
  valid_date_month year_from month_from →
  2010 <= year_to <= 3000 →
  not_after year_from month_from year_to 12 →
  get_data_filepath_prefixes root year_from month_from year_to 12
  = Raise (AssertionError year_msg).
Proof.
  intros [Hyf Hmf] Hyt Hrange.
  rewrite get_data_filepath_prefixes_not_after by done.
  apply (prefixes_loop_december root year_to 12
           (Z.to_nat (12 * (3000 - year_from) + (12 - month_from))));
    unfold loop_bound; lia.
Qed.

Example get_data_filepath_prefixes_year_carry :
  get_data_filepath_prefixes configured_root_data_dir 2013 11 2014 2
  = Ok ["./full_data/2013_11_November/T201311";
        "./full_data/2013_12_December/T201312";
        "./full_data/2014_01_January/T201401";
        "./full_data/2014_02_February/T201402"].
Proof.
  rewrite get_data_filepath_prefixes_months;
    unfold valid_date_month, not_after; try lia.
  reflexivity.
Qed.

(** C1. The claim fails on the range from November to December 2013: the
    range has two months, and the function raises the assertion of the year
    instead of returning their two prefixes. *)
Theorem get_data_filepath_prefixes_november_december_2013 :
  months_between 2013 11 2013 12 = [(2013, 11); (2013, 12)]
  ∧ get_data_filepath_prefixes configured_root_data_dir 2013 11 2013 12
    = Raise (AssertionError year_msg).
Proof.
  split; [reflexivity |].
  apply get_data_filepath_prefixes_december;
    unfold valid_date_month, not_after; lia.
Qed.

(** C2. On a valid range the function returns normally exactly when the
    range does not end in December: with [month_to = 12] it raises the
    assertion of the year, also when the range is the one month of
    December. *)
Theorem get_data_filepath_prefixes_returns
    (root : string) (year_from month_from year_to month_to : Z) :
  valid_date_month year_from month_from →
  valid_date_month year_to month_to →
  not_after year_from month_from year_to month_to →
  (month_to = 12 →
   get_data_filepath_prefixes root year_from month_from year_to month_to
   = Raise (AssertionError year_msg))
  ∧ (month_to ≠ 12 →
     ∃ filepaths,
       get_data_filepath_prefixes root year_from month_from year_to month_to
       = Ok filepaths).
Proof.
  intros Hfrom Hto Hrange. split.
  - intros ->. apply get_data_filepath_prefixes_december; [done | | done].
    by destruct Hto.
  - intros Hdec. eexists. by apply get_data_filepath_prefixes_months.
Qed.

Lemma get_data_filepath_prefixes_returns_witness :
  get_data_filepath_prefixes configured_root_data_dir 2010 12 2010 12
  = Raise (AssertionError year_msg).
Proof.
  apply (get_data_filepath_prefixes_returns
           configured_root_data_dir 2010 12 2010 12);
    unfold valid_date_month, not_after; lia.
Defined.

Lemma range_msg_not_validation_msg :
  range_msg ≠ year_msg ∧ range_msg ≠ month_msg.
Proof. split; discriminate. Qed.

(** C5. The function raises the assertion of the range exactly when the
    "from" DateMonth is strictly after the "to" DateMonth, the years
    compared first and then the months. *)
Theorem get_data_filepath_prefixes_range_error
    (root : string) (year_from month_from year_to month_to : Z) :
  get_data_filepath_prefixes root year_from month_from year_to month_to
  = Raise (AssertionError range_msg)
  ↔ strictly_after year_from month_from year_to month_to.
Proof.
  split; [| apply get_data_filepath_prefixes_strictly_after].
  destruct (not_after_or_strictly_after year_from month_from year_to month_to)
    as [H | H]; [| done].
  rewrite get_data_filepath_prefixes_not_after by done. intros Hrun.
  destruct range_msg_not_validation_msg as [Hyear Hmonth].
  apply prefixes_loop_raises in Hrun as [Hrun | Hrun]; congruence.
Qed.

Lemma get_data_filepath_prefixes_range_error_witness :
  get_data_filepath_prefixes configured_root_data_dir 2014 2 2013 11
  = Raise (AssertionError range_msg).
Proof.
  apply (get_data_filepath_prefixes_range_error
           configured_root_data_dir 2014 2 2013 11).
  unfold strictly_after. lia.
Defined.

(** ** The existence checker *)

Lemma examine_nil (w : world) : examine w [] = w.
Proof.
  destruct w as [fs out calls]. unfold examine, warnings_for. simpl.
  by rewrite !app_nil_r.
Qed.

Lemma examine_app (w : world) (paths1 paths2 : list string) :
  examine (examine w paths1) paths2 = examine w (paths1 ++ paths2).
Proof.
  unfold examine, warnings_for. simpl.
  by rewrite filter_app, fmap_app, !app_assoc.
Qed.

Lemma file_check_run (filepath : string) (w : world) :
  file_check filepath w = (Ok tt, examine w [filepath]).
Proof.
  unfold file_check, isfile, print, examine, warnings_for.
  unfold mbind, IO_bind, mret, IO_ret. simpl.
  rewrite filter_cons, filter_nil.
  destruct (decide (missing (files w) filepath)) as [Hfile | Hfile].
  - rewrite bool_decide_eq_false_2; [done |].
    unfold missing in Hfile. rewrite Hfile. by intros [? ?].
  - rewrite bool_decide_eq_true_2; [simpl; by rewrite app_nil_r |].
    unfold missing in Hfile. by destruct (files w !! filepath); eauto.
Qed.

Lemma bind_lift_ok {A B : Type} (a : A) (k : A → IO B) (w : world) :
  (lift (Ok a) ≫= k) w = k a w.
Proof. reflexivity. Qed.

Lemma getitem_middle {A B : Type} (f : A → B) (before after : list A) (x : A) :
  getitem (f <$> before ++ x :: after) (length before) = Ok (f x).
Proof.
  unfold getitem. by rewrite list_lookup_fmap, list_lookup_middle.
Qed.

(** The loop of [check_data] over the months that are left. *)
Lemma check_data_loop (todo : list string) :
  ∀ (before : list string) (w : world),
    for_each (seq (length before) (length todo)) (λ i,
      a ← lift (getitem ((λ p, p +:+ "ADDR BNFT.CSV") <$> before ++ todo) i);
      _ ← file_check a;
      c ← lift (getitem ((λ p, p +:+ "CHEM SUBS.CSV") <$> before ++ todo) i);
      _ ← file_check c;
      p ← lift (getitem ((λ p, p +:+ "PDPI BNFT.CSV") <$> before ++ todo) i);
      file_check p) w
    = (Ok tt, examine w (todo ≫= files_of_prefix)).
Proof.
  induction todo as [|prefix todo IH]; intros before w.
  - simpl. by rewrite examine_nil.
  - specialize (IH (before ++ [prefix])).
    rewrite length_app, Nat.add_1_r, <- app_assoc in IH. simpl in IH.
    simpl. unfold mbind at 1. unfold IO_bind at 1.
    unfold mbind at 1. unfold IO_bind at 1. unfold lift at 1.
    rewrite getitem_middle.
    unfold mbind at 1. unfold IO_bind at 1. rewrite file_check_run.
    unfold mbind at 1. unfold IO_bind at 1. unfold lift at 1.
    rewrite getitem_middle.
    unfold mbind at 1. unfold IO_bind at 1. rewrite file_check_run.
    unfold mbind at 1. unfold IO_bind at 1. unfold lift at 1.
    rewrite getitem_middle. rewrite file_check_run.
    rewrite IH. by rewrite !examine_app.
Qed.

Lemma check_data_ok
    (root : string) (year_from month_from year_to month_to : Z)
    (prefixes : list string) (w : world) :
  get_data_filepath_prefixes root year_from month_from year_to month_to
  = Ok prefixes →
  check_data root year_from month_from year_to month_to w
  = (Ok tt, examine w (prefixes ≫= files_of_prefix)).
Proof.
  intros Hprefixes.
  unfold check_data, get_address_data_filepaths, get_chems_data_filepaths,
    get_prescription_data_filepaths.
  rewrite Hprefixes. cbn [mbind result_bind].
  do 3 (rewrite bind_lift_ok; cbv beta).
  rewrite length_fmap. apply (check_data_loop prefixes []).
Qed.

Lemma check_data_raise
    (root : string) (year_from month_from year_to month_to : Z)
    (e : exn) (w : world) :
  get_data_filepath_prefixes root year_from month_from year_to month_to
  = Raise e →
  check_data root year_from month_from year_to month_to w = (Raise e, w).
Proof.
  intros Hprefixes.
  unfold check_data, get_address_data_filepaths. by rewrite Hprefixes.
Qed.

Lemma files_of_months_prefixes (root : string) (months : list (Z * Z)) :
  (prefix_of_month root <$> months) ≫= files_of_prefix
  = files_of_months root months.
Proof.
  unfold files_of_months.
  induction months as [|ym months IH]; [done |].
  rewrite fmap_cons, !bind_cons. by rewrite IH.
Qed.

(** On a valid range that does not end in December the checker examines
    the three files of every month, warns once about each missing one, and
    returns. *)
Theorem check_data_before_december
    (root : string) (year_from month_from year_to month_to : Z) (w : world) :
  valid_date_month year_from month_from →
  valid_date_month year_to month_to →
  not_after year_from month_from year_to month_to →
  month_to ≠ 12 →
  check_data root year_from month_from year_to month_to w
  = (Ok tt,
     examine w
       (files_of_months root
          (months_between year_from month_from year_to month_to))).
Proof.
  intros Hfrom Hto Hrange Hdec.
  rewrite (check_data_ok root _ _ _ _
             (prefix_of_month root <$>
                months_between year_from month_from year_to month_to))
    by (by apply get_data_filepath_prefixes_months).
  by rewrite files_of_months_prefixes.
Qed.

(** On a valid range that ends in December the checker raises before it
    has examined any file. *)
Lemma check_data_december
    (root : string) (year_from month_from year_to : Z) (w : world) :
  valid_date_month year_from month_from →
  2010 <= year_to <= 3000 →
  not_after year_from month_from year_to 12 →
  check_data root year_from month_from year_to 12 w
  = (Raise (AssertionError year_msg), w).
Proof.
  intros Hfrom Hto Hrange.
  by apply check_data_raise, get_data_filepath_prefixes_december.
Qed.

(** C8. The claim fails on November to December 2013 in a world where the
    address file of November is missing: one warning is due, and the
    checker raises the assertion of the year, examines no file and prints
    nothing. *)
Theorem check_data_november_december_2013 :
  warnings_for (files december_world)
    (files_of_months configured_root_data_dir
       (months_between 2013 11 2013 12))
  = [warning "./full_data/2013_11_November/T201311ADDR BNFT.CSV"]
  ∧ check_data configured_root_data_dir 2013 11 2013 12 december_world
    = (Raise (AssertionError year_msg), december_world).
Proof.
  split; [vm_compute; reflexivity |].
  apply check_data_december; unfold valid_date_month, not_after; lia.
Qed.

(** C10. The claim fails on November to December 2013: the six files of the
    range are due to be examined month after month, and within a month the
    address file, then the chemicals file, then the prescriptions file; the
    checker raises the assertion of the year and has examined none of
    them. *)
Theorem check_data_order_november_december_2013 :
  files_of_months configured_root_data_dir (months_between 2013 11 2013 12)
  = ["./full_data/2013_11_November/T201311ADDR BNFT.CSV";
     "./full_data/2013_11_November/T201311CHEM SUBS.CSV";
     "./full_data/2013_11_November/T201311PDPI BNFT.CSV";
     "./full_data/2013_12_December/T201312ADDR BNFT.CSV";
     "./full_data/2013_12_December/T201312CHEM SUBS.CSV";
     "./full_data/2013_12_December/T201312PDPI BNFT.CSV"]
  ∧ ∀ w : world,
      let run := check_data configured_root_data_dir 2013 11 2013 12 w in
      run.1 = Raise (AssertionError year_msg)
      ∧ isfile_calls run.2 = isfile_calls w.
Proof.
  split; [vm_compute; reflexivity |].
  intros w.
  rewrite check_data_december by (unfold valid_date_month, not_after; lia).
  done.
Qed.

(** ** The loaders *)

Lemma get_address_data_filepath_valid (root : string) (year month : Z) :
  valid_date_month year month →
  get_address_data_filepath root year month
  = Ok (prefix_of_month root (year, month) +:+ "ADDR BNFT.CSV").
Proof.
  intros H. unfold get_address_data_filepath.
  by rewrite get_file_path_prefix_valid.
Qed.

Lemma get_chems_data_filepath_valid (root : string) (year month : Z) :
  valid_date_month year month →
  get_chems_data_filepath root year month
  = Ok (prefix_of_month root (year, month) +:+ "CHEM SUBS.CSV").
Proof.
  intros H. unfold get_chems_data_filepath.
  by rewrite get_file_path_prefix_valid.
Qed.

Lemma get_prescription_data_filepath_valid (root : string) (year month : Z) :
  valid_date_month year month →
  get_prescription_data_filepath root year month
  = Ok (prefix_of_month root (year, month) +:+ "PDPI BNFT.CSV").
Proof.
  intros H. unfold get_prescription_data_filepath.
  by rewrite get_file_path_prefix_valid.
Qed.

Lemma bind_ok {A B : Type} (m : IO A) (k : A → IO B) (a : A) (w w' : world) :
  m w = (Ok a, w') → (m ≫= k) w = k a w'.
Proof. intros Hm. unfold mbind, IO_bind. by rewrite Hm. Qed.

Lemma bind_raise {A B : Type} (m : IO A) (k : A → IO B) (e : exn)
    (w w' : world) :
  m w = (Raise e, w') → (m ≫= k) w = (Raise e, w').
Proof. intros Hm. unfold mbind, IO_bind. by rewrite Hm. Qed.

Lemma mapM_result_cons {A B : Type} (f : A → result B) (x : A) (l : list A) :
  mapM f (x :: l) = (y ← f x; k ← mapM f l; mret (y :: k)).
Proof. reflexivity. Qed.

Section Reader.

Context (lib : pd.library).

Lemma read_csv_found (path : string) (names : list string) (skiprows : nat)
    (lines : list (list string)) (w : world) :
  files w !! path = Some lines →
  pd.read_csv lib path names skiprows w
  = (pd.parse_csv lib lines names skiprows, w).
Proof. intros Hfile. unfold pd.read_csv. by rewrite Hfile. Qed.

Lemma read_csv_missing (path : string) (names : list string) (skiprows : nat)
    (w : world) :
  files w !! path = None →
  pd.read_csv lib path names skiprows w = (Raise (FileNotFoundError path), w).
Proof. intros Hfile. unfold pd.read_csv. by rewrite Hfile. Qed.

Lemma data_rows_not_blank (records : list (list string)) :
  Forall (λ record, record ≠ []) records →
  data_rows records = records.
Proof.
  unfold data_rows.
  induction 1 as [|record records Hrecord _ IH]; [done |].
  rewrite filter_cons, decide_True by done. by rewrite IH.
Qed.

(** The reader on regular records: every record gives one row, and the
    columns are those of the names. *)
Lemma parse_csv_regular (lines : list (list string)) (names : list string)
    (skiprows : nat) :
  regular_records (length names) (data_rows (drop skiprows lines)) →
  pd.parse_csv lib lines names skiprows
  = Ok {| pd.columns := names;
          pd.data :=
            (λ j, pd.read_column lib
                    (pd.field j <$> data_rows (drop skiprows lines)))
              <$> seq 0 (length names) |}.
Proof.
  intros Hwidth. unfold pd.parse_csv.
  change (filter _ (drop skiprows lines))
    with (data_rows (drop skiprows lines)).
  replace (forallb _ (tail (data_rows (drop skiprows lines)))) with true;
    [done |].
  symmetry. apply forallb_forall. intros record Hin.
  apply Nat.leb_le. unfold regular_records in Hwidth.
  rewrite Forall_forall in Hwidth.
  apply Hwidth. by apply list_elem_of_In.
Qed.

(** The reader raises nothing but [ParserError]. *)
Lemma parse_csv_raises (lines : list (list string)) (names : list string)
    (skiprows : nat) (e : exn) :
  pd.parse_csv lib lines names skiprows = Raise e → e = ParserError.
Proof.
  unfold pd.parse_csv. destruct (forallb _ _); [done | congruence].
Qed.

Lemma length_read_column (texts : list string) :
  length (pd.read_column lib texts) = length texts.
Proof. unfold pd.read_column. apply length_imap. Qed.

(** [to_datetime] on the cells of a column: the dates of the months, when
    the library reads them at every position. *)
Lemma to_datetime_months (texts : list string) (months : list (Z * Z)) :
  ∀ k : nat,
    (∀ i ym, months !! i = Some ym →
       pd.strptime_Ym lib
         (pd.read_value lib texts (k + i) (year_month_text ym))
       = pd.Parsed ym.1 ym.2) →
    mapM (pd.to_datetime_cell lib)
      (imap (λ i text, pd.Value (pd.read_value lib texts (k + i) text))
         (year_month_text <$> months))
    = Ok (first_days months).
Proof.
  induction months as [|ym months IH]; intros k Hread; [done |].
  rewrite fmap_cons, imap_cons, mapM_result_cons. cbv beta.
  assert (pd.to_datetime_cell lib
            (pd.Value (pd.read_value lib texts (k + 0) (year_month_text ym)))
          = Ok (pd.Timestamp ym.1 ym.2 1)) as ->
    by (unfold pd.to_datetime_cell; by rewrite (Hread 0%nat ym)).
  cbn [mbind result_bind].
  rewrite (imap_ext _
             (λ i text, pd.Value (pd.read_value lib texts (S k + i) text)))
    by (intros i text _; simpl; do 2 f_equal; lia).
  rewrite IH; [done |].
  intros i ym' Hi. replace (S k + i)%nat with (k + S i)%nat by lia.
  by apply Hread.
Qed.

Lemma to_datetime_year_months (months : list (Z * Z)) :
  reads_dates lib →
  Forall (λ ym, 1678 <= ym.1 <= 2261 ∧ 1 <= ym.2 <= 12) months →
  pd.to_datetime lib (pd.read_column lib (year_month_text <$> months))
  = Ok (first_days months).
Proof.
  intros Hlib Hmonths. unfold pd.to_datetime, pd.read_column.
  apply (to_datetime_months _ months 0). intros i ym Hi. by apply Hlib.
Qed.

End Reader.

Lemma address_rows_data (rs : list address_row) :
  data_rows (address_fields <$> rs) = address_fields <$> rs.
Proof. apply data_rows_not_blank, Forall_fmap. by apply Forall_true. Qed.

Lemma address_rows_regular (rs : list address_row) :
  Forall well_formed_address_row rs →
  regular_records 8 (address_fields <$> rs).
Proof.
  intros Hrows. unfold regular_records.
  destruct Hrows as [|r rs Hr Hrs]; [constructor |].
  rewrite fmap_cons. simpl. apply Forall_fmap.
  eapply Forall_impl; [exact Hrs |].
  intros r' (_ & _ & Hlen). unfold address_fields. simpl. lia.
Qed.

Lemma address_rows_months (rs : list address_row) :
  Forall well_formed_address_row rs →
  Forall (λ ym, 1678 <= ym.1 <= 2261 ∧ 1 <= ym.2 <= 12)
    ((λ r, (row_year r, row_month r)) <$> rs).
Proof.
  intros Hrows. apply Forall_fmap.
  eapply Forall_impl; [exact Hrows |]. by intros r (Hy & Hm & _).
Qed.

(** C6. For a well-formed address file, every row of the file is data: the
    loader returns a frame of the eight column names with one row per row
    of the file, in file order.  Its first column holds the first day of
    the month that the first field of each row writes as [YYYYMM]; each of
    the seven other columns holds what the library reads from the fields
    of the rows at its position. *)
Theorem load_address_data_records
    (root : string) (lib : pd.library) (year month : Z) (w : world)
    (rs : list address_row) :
  2010 <= year <= 3000 → 1 <= month <= 12 →
  files w !! (prefix_of_month root (year, month) +:+ "ADDR BNFT.CSV")
  = Some (address_fields <$> rs) →
  Forall well_formed_address_row rs →
  reads_dates lib →
  ∃ addresses,
    load_address_data root lib year month w = (Ok addresses, w)
    ∧ pd.columns addresses
      = ["Year-Month"; "PracticeCode"; "PracticeName"; "Addr1"; "Addr2";
         "Addr3"; "Addr4"; "PostCode"]
    ∧ pd.data addresses = address_columns lib rs
    ∧ Forall (λ column, length column = length rs) (pd.data addresses).
Proof.
  intros Hy Hm Hfile Hrows Hlib.
  exists {| pd.columns :=
              ["Year-Month"; "PracticeCode"; "PracticeName"; "Addr1";
               "Addr2"; "Addr3"; "Addr4"; "PostCode"];
            pd.data := address_columns lib rs |}.
  split; [| split; [done | split; [done |]]].
  - unfold load_address_data.
    rewrite get_address_data_filepath_valid by done.
    rewrite bind_lift_ok. cbv beta zeta.
    erewrite bind_ok; last first.
    { rewrite (read_csv_found _ _ _ _ _ _ Hfile).
      rewrite parse_csv_regular
        by (rewrite drop_0, address_rows_data; by apply address_rows_regular).
      reflexivity. }
    rewrite drop_0, address_rows_data.
    assert (∀ j, pd.field (S j) <$> (address_fields <$> rs)
                 = (λ r, nth j (row_rest r) "") <$> rs) as Hrest
      by (intros j; by rewrite <- list_fmap_compose).
    assert (pd.field 0 <$> (address_fields <$> rs)
            = year_month_text <$> ((λ r, (row_year r, row_month r)) <$> rs))
      as Hfirst by (by rewrite <- !list_fmap_compose).
    simpl. rewrite Hfirst, !Hrest.
    unfold pd.get_column, pd.column_index. simpl.
    rewrite bind_lift_ok.
    rewrite to_datetime_year_months
      by (done || by apply address_rows_months).
    rewrite bind_lift_ok. reflexivity.
  - simpl. unfold address_columns. constructor.
    + unfold first_days. by rewrite !length_fmap.
    + apply Forall_fmap, Forall_true. intros j. simpl.
      by rewrite length_read_column, length_fmap.
Qed.

(** The text [YYYYMM] of a year and a month reads back as them. *)
Lemma parse_Ym_year_month (year month : Z) :
  1678 <= year <= 2261 → 1 <= month <= 12 →
  pd.parse_Ym (four_digits year +:+ two_digits month) = Some (year, month).
Proof.
  intros Hy Hm.
  pose (check := λ y m : Z,
          bool_decide (pd.parse_Ym (four_digits y +:+ two_digits m)
                       = Some (y, m))).
  assert (forallb (λ y, forallb (check y) (seqZ 1 12)) (seqZ 1678 584) = true)
    as Hall by (vm_compute; reflexivity).
  pose proof (forallb_seqZ _ _ _ Hall year) as Hyear.
  cbv beta in Hyear.
  pose proof (forallb_seqZ _ _ _ (Hyear ltac:(lia)) month ltac:(lia)) as H.
  by apply bool_decide_eq_true in H.
Qed.

(** The library of texts reads the dates. *)
Lemma text_library_reads_dates : reads_dates pd.text_library.
Proof.
  intros months i [y m] Hmonths Hi.
  apply (Forall_lookup_1 _ _ _ _ Hmonths) in Hi as [Hy Hm].
  simpl in Hy, Hm.
  change (match pd.parse_Ym (four_digits y +:+ two_digits m) with
          | Some (y', m') =>
              if pd.in_bounds y' m' then pd.Parsed y' m' else pd.OutOfBounds
          | None => pd.Unparsed
          end = pd.Parsed y m).
  rewrite parse_Ym_year_month by done.
  replace (pd.in_bounds y m) with true; [done |].
  symmetry. unfold pd.in_bounds.
  apply andb_true_iff. rewrite !orb_true_iff. lia.
Qed.

Lemma load_address_data_records_witness :
  ∃ addresses,
    load_address_data configured_root_data_dir pd.text_library 2013 4
      april_world
    = (Ok addresses, april_world)
    ∧ pd.columns addresses
      = ["Year-Month"; "PracticeCode"; "PracticeName"; "Addr1"; "Addr2";
         "Addr3"; "Addr4"; "PostCode"]
    ∧ pd.data addresses
      = [[pd.Timestamp 2013 4 1; pd.Timestamp 2013 4 1];
         [pd.Text "A81001"; pd.Text "A81002"];
         [pd.Text "THE DENSHAM SURGERY";
          pd.Text "QUEENS PARK MEDICAL CENTRE"];
         [pd.Text "THE HEALTH CENTRE"; pd.Text "QUEENS PARK MEDICAL CTR"];
         [pd.Text "LAWSON STREET"; pd.Text "FARRER STREET"];
         [pd.Text "STOCKTON"; pd.Text "STOCKTON ON TEES"];
         [pd.Text "CLEVELAND"; pd.Text "CLEVELAND"];
         [pd.Text "TS18 1HU"; pd.Text "TS18 2AW"]]
    ∧ Forall (λ column, length column = 2%nat) (pd.data addresses).
Proof.
  apply (load_address_data_records configured_root_data_dir pd.text_library
           2013 4 april_world
           [ {| row_year := 2013; row_month := 4;
                row_rest := ["A81001"; "THE DENSHAM SURGERY";
                             "THE HEALTH CENTRE"; "LAWSON STREET";
                             "STOCKTON"; "CLEVELAND"; "TS18 1HU"] |};
             {| row_year := 2013; row_month := 4;
                row_rest := ["A81002"; "QUEENS PARK MEDICAL CENTRE";
                             "QUEENS PARK MEDICAL CTR"; "FARRER STREET";
                             "STOCKTON ON TEES"; "CLEVELAND";
                             "TS18 2AW"] |} ]).
  - lia.
  - lia.
  - vm_compute. reflexivity.
  - repeat constructor; simpl; lia.
  - exact text_library_reads_dates.
Defined.

(** C7. For a chemicals file of a header row followed by N data rows (the
    lines after the header that are not blank), which the reader takes
    without an error, the loader skips the first row and no other: it
    returns a frame of the two column names with N rows, those of the N
    data rows in file order.  Its two columns hold what the library reads
    from the first fields and from the second fields of the data rows. *)
Theorem load_chems_data_skips_header
    (root : string) (lib : pd.library) (year month : Z) (w : world)
    (header : list string) (lines : list (list string)) :
  2010 <= year <= 3000 → 1 <= month <= 12 →
  files w !! (prefix_of_month root (year, month) +:+ "CHEM SUBS.CSV")
  = Some (header :: lines) →
  regular_records 2 (data_rows lines) →
  ∃ chems,
    load_chems_data root lib year month w = (Ok chems, w)
    ∧ pd.columns chems = ["ChemCode"; "ChemName"]
    ∧ pd.data chems = chemical_columns lib (data_rows lines)
    ∧ Forall (λ column, length column = length (data_rows lines))
        (pd.data chems).
Proof.
  intros Hy Hm Hfile Hrecords.
  exists {| pd.columns := ["ChemCode"; "ChemName"];
            pd.data := chemical_columns lib (data_rows lines) |}.
  split; [| split; [done | split; [done |]]].
  - unfold load_chems_data.
    rewrite get_chems_data_filepath_valid by done.
    rewrite bind_lift_ok. cbv beta zeta.
    rewrite (read_csv_found _ _ _ _ _ _ Hfile).
    by rewrite parse_csv_regular by done.
  - simpl. unfold chemical_columns.
    repeat constructor; by rewrite length_read_column, length_fmap.
Qed.

Lemma load_chems_data_skips_header_witness :
  ∃ chems,
    load_chems_data configured_root_data_dir pd.text_library 2013 4
      april_world
    = (Ok chems, april_world)
    ∧ pd.columns chems = ["ChemCode"; "ChemName"]
    ∧ pd.data chems
      = [[pd.Text "0101010A0"; pd.Text "0101010B0"; pd.Text "0101010C0"];
         [pd.Text "Alexitol Sodium"; pd.Text "Almasilate";
          pd.Text "Aluminium Hydroxide"]]
    ∧ Forall (λ column, length column = 3%nat) (pd.data chems).
Proof.
  apply (load_chems_data_skips_header configured_root_data_dir
           pd.text_library 2013 4 april_world ["CHEM SUB"; "NAME"; "201304"]
           [["0101010A0"; "Alexitol Sodium"];
            ["0101010B0"; "Almasilate"];
            ["0101010C0"; "Aluminium Hydroxide"]]).
  - lia.
  - lia.
  - vm_compute. reflexivity.
  - repeat constructor; simpl; lia.
Defined.

(** ** The range generator on every input

    The "to" DateMonth is never validated: it is only compared with the
    state of the loop.  The lemmas below follow the loop from any state,
    by the month that the exit test waits for. *)

Section RangeAll.

Context (root : string) (year_to month_to : Z).

(** The exit test can succeed [n] iterations ahead: the month after
    [month_to] exists and is not later than January 3001. *)
Lemma prefixes_loop_reaches_exit (n : nat) :
  ∀ (fuel : nat) (filepaths : list string) (current_year current_month : Z),
    2010 <= current_year → 1 <= current_month <= 12 →
    0 <= month_to <= 11 → 12 * year_to + month_to <= 12 * 3001 →
    12 * year_to + month_to - month_index current_year current_month
    = Z.of_nat n →
    (n < fuel)%nat →
    prefixes_loop root fuel year_to month_to filepaths
      current_year current_month
    = Ok (filepaths ++
            (prefix_of_month root <$>
               (month_of_index <$>
                  seqZ (month_index current_year current_month)
                       (Z.of_nat n)))).
Proof.
  induction n as [|n IH];
    intros fuel filepaths cy cm Hcy Hcm Hmt Hyt Hn Hfuel;
    (destruct fuel as [|fuel]; [lia |]); unfold month_index in Hn.
  - assert (cy = year_to ∧ cm = month_to + 1) as [-> ->] by lia.
    rewrite prefixes_loop_exit. by rewrite seqZ_nil, app_nil_r by lia.
  - rewrite seqZ_cons by lia. rewrite !fmap_cons.
    rewrite month_of_index_month_index by done.
    replace (Z.pred (Z.of_nat (S n))) with (Z.of_nat n) by lia.
    destruct (decide (cm = 12)) as [-> | Hm12].
    + rewrite prefixes_loop_next_year by lia.
      rewrite IH by (unfold month_index; lia).
      replace (Z.succ (month_index cy 12)) with (month_index (cy + 1) 1)
        by (unfold month_index; lia).
      by rewrite <- app_assoc.
    + rewrite prefixes_loop_next_month by lia.
      rewrite IH by (unfold month_index; lia).
      replace (Z.succ (month_index cy cm)) with (month_index cy (cm + 1))
        by (unfold month_index; lia).
      by rewrite <- app_assoc.
Qed.

(** The exit test cannot succeed from a state on: the loop runs until the
    year has passed 3000 and raises. *)
Lemma prefixes_loop_misses_exit (n : nat) :
  ∀ (fuel : nat) (filepaths : list string) (current_year current_month : Z),
    2010 <= current_year <= 3000 → 1 <= current_month <= 12 →
    ¬ (0 <= month_to <= 11
       ∧ month_index current_year current_month <= 12 * year_to + month_to
         <= 12 * 3001) →
    12 * (3000 - current_year) + (12 - current_month) = Z.of_nat n →
    (n + 2 <= fuel)%nat →
    prefixes_loop root fuel year_to month_to filepaths
      current_year current_month
    = Raise (AssertionError year_msg).
Proof.
  unfold month_index.
  induction n as [|n IH];
    intros fuel filepaths cy cm Hcy Hcm Hmiss Hn Hfuel;
    (destruct fuel as [|fuel]; [lia |]).
  - assert (cy = 3000 ∧ cm = 12) as [-> ->] by lia.
    rewrite prefixes_loop_next_year by lia.
    destruct fuel as [|fuel]; [lia |].
    rewrite prefixes_loop_year_fail by lia. done.
  - destruct (decide (cm = 12)) as [-> | Hm12].
    + rewrite prefixes_loop_next_year by lia. apply IH; lia.
    + rewrite prefixes_loop_next_month by lia. apply IH; lia.
Qed.

End RangeAll.

(** The "to" month may be 0: the month after it is then January. *)
Lemma get_data_filepath_prefixes_reaches_to
    (root : string) (year_from month_from year_to month_to : Z) :
  valid_date_month year_from month_from →
  not_after year_from month_from year_to month_to →
  0 <= month_to <= 11 →
  year_to <= 3000 ∨ (year_to = 3001 ∧ month_to = 0) →
  get_data_filepath_prefixes root year_from month_from year_to month_to
  = Ok (prefix_of_month root <$>
          months_between year_from month_from year_to month_to).
Proof.
  intros [Hyf Hmf] Hrange Hmt Hyt.
  rewrite get_data_filepath_prefixes_not_after by done.
  unfold months_between, not_after, loop_bound in *.
  pose (n := Z.to_nat (month_index year_to month_to
                       - month_index year_from month_from + 1)).
  rewrite (prefixes_loop_reaches_exit root year_to month_to n);
    unfold month_index in *; try lia.
  by replace (Z.of_nat n)
    with (12 * year_to + (month_to - 1)
          - (12 * year_from + (month_from - 1)) + 1) by lia.
Qed.

(** A valid "from" DateMonth and a "to" DateMonth the loop cannot meet:
    the assertion of the year is raised. *)
Lemma get_data_filepath_prefixes_misses_to
    (root : string) (year_from month_from year_to month_to : Z) :
  valid_date_month year_from month_from →
  not_after year_from month_from year_to month_to →
  ¬ (0 <= month_to <= 11 ∧ 12 * year_to + month_to <= 12 * 3001) →
  get_data_filepath_prefixes root year_from month_from year_to month_to
  = Raise (AssertionError year_msg).
Proof.
  intros [Hyf Hmf] Hrange Hmiss.
  rewrite get_data_filepath_prefixes_not_after by done.
  apply (prefixes_loop_misses_exit root year_to month_to
           (Z.to_nat (12 * (3000 - year_from) + (12 - month_from))));
    [done | done | | lia | unfold loop_bound; lia].
  unfold month_index. lia.
Qed.

(** An invalid "from" DateMonth that is not after the "to" DateMonth: the
    first iteration raises what [get_file_path_prefix] raises. *)
Lemma get_data_filepath_prefixes_first_iteration
    (root : string) (year_from month_from year_to month_to : Z) (e : exn) :
  not_after year_from month_from year_to month_to →
  get_file_path_prefix root year_from month_from = Raise e →
  get_data_filepath_prefixes root year_from month_from year_to month_to
  = Raise e.
Proof.
  intros Hrange Hfail.
  rewrite get_data_filepath_prefixes_not_after by done.
  unfold loop_bound. rewrite prefixes_loop_S.
  rewrite exit_test_false by (unfold not_after in Hrange; lia).
  by rewrite Hfail.
Qed.

(** What a returned list tells about the arguments. *)
Lemma get_data_filepath_prefixes_ok_inv
    (root : string) (year_from month_from year_to month_to : Z)
    (filepaths : list string) :
  get_data_filepath_prefixes root year_from month_from year_to month_to
  = Ok filepaths →
  valid_date_month year_from month_from
  ∧ not_after year_from month_from year_to month_to
  ∧ 0 <= month_to <= 11
  ∧ (year_to <= 3000 ∨ (year_to = 3001 ∧ month_to = 0))
  ∧ filepaths
    = prefix_of_month root <$>
        months_between year_from month_from year_to month_to.
Proof.
  intros Hrun.
  destruct (not_after_or_strictly_after
              year_from month_from year_to month_to) as [Hrange | Hrange];
    [| by rewrite get_data_filepath_prefixes_strictly_after in Hrun].
  destruct (get_file_path_prefix_cases root year_from month_from)
    as [[Hfrom _] | Hfail].
  - destruct (decide (0 <= month_to <= 11
                      ∧ 12 * year_to + month_to <= 12 * 3001))
      as [[Hmt Hyt] | Hmiss].
    + assert (year_to <= 3000 ∨ (year_to = 3001 ∧ month_to = 0)) as Hyt'
        by lia.
      rewrite get_data_filepath_prefixes_reaches_to in Hrun by done.
      by simplify_eq.
    + by rewrite get_data_filepath_prefixes_misses_to in Hrun.
  - destruct Hfail as [[_ Hp] | (_ & _ & Hp)];
      by rewrite (get_data_filepath_prefixes_first_iteration _ _ _ _ _ _
                    Hrange Hp) in Hrun.
Qed.

(** X1. On every input, the function returns a list exactly when the
    "from" DateMonth is valid and not after the "to" DateMonth, the "to"
    month is between 0 and 11, and the month after the "to" DateMonth is
    not later than January 3001; the list is then the prefixes of the
    months of the range, in calendar order. *)
Theorem get_data_filepath_prefixes_ok_iff
    (root : string) (year_from month_from year_to month_to : Z)
    (filepaths : list string) :
  get_data_filepath_prefixes root year_from month_from year_to month_to
  = Ok filepaths
  ↔ valid_date_month year_from month_from
    ∧ not_after year_from month_from year_to month_to
    ∧ 0 <= month_to <= 11
    ∧ (year_to <= 3000 ∨ (year_to = 3001 ∧ month_to = 0))
    ∧ filepaths
      = prefix_of_month root <$>
          months_between year_from month_from year_to month_to.
Proof.
  split; [apply get_data_filepath_prefixes_ok_inv |].
  intros (Hfrom & Hrange & Hmt & Hyt & ->).
  by apply get_data_filepath_prefixes_reaches_to.
Qed.

Lemma get_data_filepath_prefixes_ok_iff_witness :
  get_data_filepath_prefixes configured_root_data_dir 2013 11 2014 2
  = Ok (prefix_of_month configured_root_data_dir <$>
          [(2013, 11); (2013, 12); (2014, 1); (2014, 2)]).
Proof.
  apply (get_data_filepath_prefixes_ok_iff
           configured_root_data_dir 2013 11 2014 2).
  unfold valid_date_month, not_after.
  split; [lia |]. split; [lia |]. split; [lia |]. split; [lia |].
  reflexivity.
Defined.

(** X2. A "to" month of 0 is accepted, with the year after: it stands for
    December of the year before, so a range that ends in December of a year
    up to 3000 is returned when its end is given as month 0 of the next
    year. *)
Theorem get_data_filepath_prefixes_month_zero
    (root : string) (year_from month_from year_to : Z) :
  valid_date_month year_from month_from →
  year_from <= year_to <= 3000 →
  get_data_filepath_prefixes root year_from month_from (year_to + 1) 0
  = Ok (prefix_of_month root <$>
          months_between year_from month_from year_to 12).
Proof.
  intros Hfrom Hto.
  rewrite get_data_filepath_prefixes_reaches_to;
    [| done | unfold not_after; lia | lia | lia].
  unfold months_between, month_index.
  by replace (12 * (year_to + 1) + (0 - 1)) with (12 * year_to + (12 - 1))
    by lia.
Qed.

Lemma get_data_filepath_prefixes_month_zero_witness :
  get_data_filepath_prefixes configured_root_data_dir 2013 11 2014 0
  = Ok ["./full_data/2013_11_November/T201311";
        "./full_data/2013_12_December/T201312"].
Proof.
  apply (get_data_filepath_prefixes_month_zero
           configured_root_data_dir 2013 11 2013);
    unfold valid_date_month; lia.
Defined.

(** X3. When the "from" DateMonth is not after the "to" DateMonth and is
    not valid, the function raises on its first iteration: the assertion of
    the year when the "from" year is out of bounds, the assertion of the
    month when only the "from" month is. *)
Theorem get_data_filepath_prefixes_invalid_from
    (root : string) (year_from month_from year_to month_to : Z) :
  not_after year_from month_from year_to month_to →
  (year_from < 2010 ∨ 3000 < year_from →
   get_data_filepath_prefixes root year_from month_from year_to month_to
   = Raise (AssertionError year_msg))
  ∧ (2010 <= year_from <= 3000 → month_from < 1 ∨ 12 < month_from →
     get_data_filepath_prefixes root year_from month_from year_to month_to
     = Raise (AssertionError month_msg)).
Proof.
  intros Hrange. split.
  - intros Hyf. apply get_data_filepath_prefixes_first_iteration; [done |].
    by apply get_file_path_prefix_year_fail.
  - intros Hyf Hmf. apply get_data_filepath_prefixes_first_iteration; [done |].
    by apply get_file_path_prefix_month_fail.
Qed.

Lemma get_data_filepath_prefixes_invalid_from_witness :
  get_data_filepath_prefixes configured_root_data_dir 2009 11 2013 4
  = Raise (AssertionError year_msg)
  ∧ get_data_filepath_prefixes configured_root_data_dir 2013 0 2013 4
    = Raise (AssertionError month_msg).
Proof.
  split.
  - apply (get_data_filepath_prefixes_invalid_from
             configured_root_data_dir 2009 11 2013 4);
      unfold not_after; lia.
  - apply (get_data_filepath_prefixes_invalid_from
             configured_root_data_dir 2013 0 2013 4);
      unfold not_after; lia.
Defined.

(** X4. On every input the loop ends: the function returns a list or raises
    an [AssertionError], whose message is that of the range, of the year or
    of the month; no other exception leaves it. *)
Theorem get_data_filepath_prefixes_outcomes
    (root : string) (year_from month_from year_to month_to : Z) :
  (∃ filepaths,
     get_data_filepath_prefixes root year_from month_from year_to month_to
     = Ok filepaths)
  ∨ (∃ msg,
       get_data_filepath_prefixes root year_from month_from year_to month_to
       = Raise (AssertionError msg)
       ∧ (msg = range_msg ∨ msg = year_msg ∨ msg = month_msg)).
Proof.
  destruct (not_after_or_strictly_after year_from month_from year_to month_to)
    as [Hrange | Hrange].
  - destruct (get_file_path_prefix_cases root year_from month_from)
      as [[Hfrom _] | [[_ Hp] | (_ & _ & Hp)]].
    + destruct (decide (0 <= month_to <= 11
                        ∧ 12 * year_to + month_to <= 12 * 3001))
        as [[Hmt Hyt] | Hmiss].
      * left. eexists.
        apply get_data_filepath_prefixes_reaches_to; [done | done | done |].
        lia.
      * right. exists year_msg. split; [| by auto].
        by apply get_data_filepath_prefixes_misses_to.
    + right. exists year_msg. split; [| by auto].
      by apply get_data_filepath_prefixes_first_iteration.
    + right. exists month_msg. split; [| by auto].
      by apply get_data_filepath_prefixes_first_iteration.
  - right. exists range_msg. split; [| by auto].
    by apply get_data_filepath_prefixes_strictly_after.
Qed.

(** ** The paths of a range and the paths of a month *)

(** The months of a range the generator accepts are valid DateMonths. *)
Lemma months_between_valid (year_from month_from year_to month_to : Z) :
  valid_date_month year_from month_from →
  0 <= month_to <= 11 →
  year_to <= 3000 ∨ (year_to = 3001 ∧ month_to = 0) →
  Forall (λ ym, valid_date_month ym.1 ym.2)
    (months_between year_from month_from year_to month_to).
Proof.
  intros [Hyf Hmf] Hmt Hyt. unfold months_between.
  apply Forall_fmap, Forall_seqZ. intros i Hi.
  unfold month_index in Hi. unfold valid_date_month, month_of_index. simpl.
  Z.div_mod_to_equations. lia.
Qed.

Lemma range_filepaths_forall2
    (root suffix : string) (months : list (Z * Z)) :
  Forall (λ ym, valid_date_month ym.1 ym.2) months →
  Forall2
    (λ ym path,
       (p ← get_file_path_prefix root ym.1 ym.2; Ok (p +:+ suffix))
       = Ok path)
    months
    ((λ p, p +:+ suffix) <$> (prefix_of_month root <$> months)).
Proof.
  induction 1 as [|ym months Hym _ IH]; [constructor |].
  rewrite !fmap_cons. constructor; [| done].
  by rewrite get_file_path_prefix_valid.
Qed.

(** X5. When a range function returns its paths, there is one path per
    month of the range, in calendar order, and the path of a month is the
    one the function of a single month returns for that month; this holds
    for the address, the chemicals and the prescription files. *)
Theorem range_filepaths_agree
    (root : string) (year_from month_from year_to month_to : Z)
    (paths : list string) :
  (get_address_data_filepaths root year_from month_from year_to month_to
   = Ok paths →
   Forall2 (λ ym path, get_address_data_filepath root ym.1 ym.2 = Ok path)
     (months_between year_from month_from year_to month_to) paths)
  ∧ (get_chems_data_filepaths root year_from month_from year_to month_to
     = Ok paths →
     Forall2 (λ ym path, get_chems_data_filepath root ym.1 ym.2 = Ok path)
       (months_between year_from month_from year_to month_to) paths)
  ∧ (get_prescription_data_filepaths root year_from month_from
       year_to month_to
     = Ok paths →
     Forall2
       (λ ym path, get_prescription_data_filepath root ym.1 ym.2 = Ok path)
       (months_between year_from month_from year_to month_to) paths).
Proof.
  unfold get_address_data_filepaths, get_chems_data_filepaths,
    get_prescription_data_filepaths.
  destruct (get_data_filepath_prefixes root year_from month_from
              year_to month_to) as [prefixes | e |] eqn:Hprefixes;
    [| by repeat split | by repeat split].
  apply get_data_filepath_prefixes_ok_inv in Hprefixes
    as (Hfrom & _ & Hmt & Hyt & ->).
  pose proof (months_between_valid _ _ _ _ Hfrom Hmt Hyt) as Hvalid.
  cbn [mbind result_bind].
  split; [| split]; intros [= <-]; by apply range_filepaths_forall2.
Qed.

Lemma range_filepaths_agree_witness :
  Forall2
    (λ ym path,
       get_address_data_filepath configured_root_data_dir ym.1 ym.2
       = Ok path)
    (months_between 2013 12 2014 1)
    ["./full_data/2013_12_December/T201312ADDR BNFT.CSV";
     "./full_data/2014_01_January/T201401ADDR BNFT.CSV"].
Proof.
  apply (range_filepaths_agree configured_root_data_dir 2013 12 2014 1).
  vm_compute. reflexivity.
Defined.

(** ** The existence checker on every input *)

(** X6. On every input the checker either returns, having examined the
    three files of every month of the range and nothing else, or raises an
    [AssertionError] of the range, of the year or of the month before it
    has examined any file or printed any line.  It raises no
    [IndexError], and it leaves the files as they are. *)
Theorem check_data_outcomes
    (root : string) (year_from month_from year_to month_to : Z) (w : world) :
  check_data root year_from month_from year_to month_to w
  = (Ok tt,
     examine w
       (files_of_months root
          (months_between year_from month_from year_to month_to)))
  ∨ (∃ msg,
       check_data root year_from month_from year_to month_to w
       = (Raise (AssertionError msg), w)
       ∧ (msg = range_msg ∨ msg = year_msg ∨ msg = month_msg)).
Proof.
  destruct (get_data_filepath_prefixes root year_from month_from
              year_to month_to) as [prefixes | e |] eqn:Hprefixes.
  - left. rewrite (check_data_ok _ _ _ _ _ _ _ Hprefixes).
    apply get_data_filepath_prefixes_ok_inv in Hprefixes
      as (_ & _ & _ & _ & ->).
    by rewrite files_of_months_prefixes.
  - right.
    destruct (not_after_or_strictly_after
                year_from month_from year_to month_to) as [Hrange | Hrange].
    + rewrite get_data_filepath_prefixes_not_after in Hprefixes by done.
      apply prefixes_loop_raises in Hprefixes as Hkind.
      rewrite <- get_data_filepath_prefixes_not_after in Hprefixes by done.
      destruct Hkind as [-> | ->]; eexists;
        (split; [by apply check_data_raise | by auto]).
    + rewrite get_data_filepath_prefixes_strictly_after in Hprefixes by done.
      simplify_eq. exists range_msg.
      split; [| by auto].
      by apply check_data_raise, get_data_filepath_prefixes_strictly_after.
  - destruct (not_after_or_strictly_after
                year_from month_from year_to month_to) as [Hrange | Hrange].
    + rewrite get_data_filepath_prefixes_not_after in Hprefixes by done.
      by apply prefixes_loop_bound_enough in Hprefixes.
    + by rewrite get_data_filepath_prefixes_strictly_after in Hprefixes.
Qed.

(** What the checker has done when it returns. *)
Lemma check_data_returns_inv
    (root : string) (year_from month_from year_to month_to : Z)
    (w w' : world) :
  check_data root year_from month_from year_to month_to w = (Ok tt, w') →
  w' = examine w
         (files_of_months root
            (months_between year_from month_from year_to month_to)).
Proof.
  intros Hrun.
  destruct (get_data_filepath_prefixes root year_from month_from
              year_to month_to) as [prefixes | e |] eqn:Hprefixes.
  - rewrite (check_data_ok _ _ _ _ _ _ _ Hprefixes) in Hrun.
    apply get_data_filepath_prefixes_ok_inv in Hprefixes
      as (_ & _ & _ & _ & ->).
    rewrite files_of_months_prefixes in Hrun. congruence.
  - rewrite (check_data_raise _ _ _ _ _ _ _ Hprefixes) in Hrun. congruence.
  - by apply get_data_filepath_prefixes_terminates in Hprefixes.
Qed.

Lemma warnings_for_nil_iff
    (fs : gmap string (list (list string))) (paths : list string) :
  warnings_for fs paths = [] ↔ Forall (λ path, is_Some (fs !! path)) paths.
Proof.
  unfold warnings_for.
  induction paths as [|path paths IH]; [by split; [constructor |] |].
  rewrite filter_cons, Forall_cons.
  destruct (decide (missing fs path)) as [Hnone | Hsome].
  - rewrite fmap_cons. split; [done |].
    intros [[content Hfile] _]. unfold missing in Hnone. congruence.
  - rewrite IH. split; [| by intros [_ ?]].
    intros Hrest. split; [| done].
    unfold missing in Hsome. by destruct (fs !! path); eauto.
Qed.

(** X7. When the checker returns, it has printed nothing exactly when
    every file of every month of the range exists. *)
Theorem check_data_silent_iff
    (root : string) (year_from month_from year_to month_to : Z)
    (w w' : world) :
  check_data root year_from month_from year_to month_to w = (Ok tt, w') →
  stdout w' = stdout w
  ↔ ∀ ym path,
      ym ∈ months_between year_from month_from year_to month_to →
      path ∈ files_of_month root ym →
      is_Some (files w !! path).
Proof.
  intros ->%check_data_returns_inv. simpl.
  rewrite <- (app_nil_r (stdout w)) at 2.
  split.
  - intros Hout%app_inv_head%warnings_for_nil_iff ym path Hym Hpath.
    rewrite Forall_forall in Hout. apply Hout.
    unfold files_of_months. apply list_elem_of_bind. eauto.
  - intros Hall. f_equal. apply warnings_for_nil_iff, Forall_forall.
    intros path (ym & Hpath & Hym)%list_elem_of_bind. eauto.
Qed.

Lemma check_data_silent_iff_witness :
  let run := check_data configured_root_data_dir 2013 4 2013 4 april_world in
  stdout run.2 = stdout april_world
  ↔ ∀ ym path,
      ym ∈ months_between 2013 4 2013 4 →
      path ∈ files_of_month configured_root_data_dir ym →
      is_Some (files april_world !! path).
Proof.
  apply (check_data_silent_iff configured_root_data_dir 2013 4 2013 4).
  vm_compute. reflexivity.
Defined.

(** ** Distinct months have distinct paths *)

Lemma digit_char_inj (a b : Z) :
  0 <= a <= 9 → 0 <= b <= 9 → digit_char a = digit_char b → a = b.
Proof.
  intros Ha Hb Heq. apply (f_equal N_of_ascii) in Heq.
  unfold digit_char in Heq. rewrite !N_ascii_embedding in Heq by lia. lia.
Qed.

(** The first seven characters of what follows the root are the digits of
    the year, an underscore and the digits of the month. *)
Lemma prefix_tail_chars (year month : Z) (suffix : string) :
  prefix_tail year month +:+ suffix
  = String (digit_char (year `div` 1000))
      (String (digit_char ((year `div` 100) `mod` 10))
         (String (digit_char ((year `mod` 100) `div` 10))
            (String (digit_char ((year `mod` 100) `mod` 10))
               (String "_"
                  (String (digit_char (month `div` 10))
                     (String (digit_char (month `mod` 10))
                        (String "_"
                           (english_month_name month +:+ "/"
                              +:+ file_stem year month +:+ suffix)))))))).
Proof.
  unfold prefix_tail, month_directory, four_digits, two_digits.
  by rewrite !string_app_assoc.
Qed.

(** The path of a file tells its month and its suffix. *)
Lemma month_file_inj
    (root : string) (year month year' month' : Z) (suffix suffix' : string) :
  valid_date_month year month → valid_date_month year' month' →
  prefix_of_month root (year, month) +:+ suffix
  = prefix_of_month root (year', month') +:+ suffix' →
  year = year' ∧ month = month' ∧ suffix = suffix'.
Proof.
  intros [Hy Hm] [Hy' Hm'] Heq. unfold prefix_of_month in Heq.
  simpl in Heq. rewrite !string_app_assoc in Heq.
  apply (inj (String.append root)) in Heq.
  rewrite !prefix_tail_chars in Heq.
  injection Heq as Hd1 Hd2 Hd3 Hd4 Hm1 Hm2 Hrest.
  apply digit_char_inj in Hd1, Hd2, Hd3, Hd4, Hm1, Hm2;
    try (Z.div_mod_to_equations; lia).
  assert (year = year') as <- by (Z.div_mod_to_equations; lia).
  assert (month = month') as <- by (Z.div_mod_to_equations; lia).
  split; [done |]. split; [done |].
  apply (inj (String.append (english_month_name month))) in Hrest.
  apply (inj (String.append "/")) in Hrest.
  by apply (inj (String.append (file_stem year month))) in Hrest.
Qed.

Lemma month_of_index_inj (i j : Z) :
  month_of_index i = month_of_index j → i = j.
Proof.
  unfold month_of_index. intros [= Hdiv Hmod].
  Z.div_mod_to_equations. lia.
Qed.

Lemma months_between_NoDup (year_from month_from year_to month_to : Z) :
  NoDup (months_between year_from month_from year_to month_to).
Proof.
  unfold months_between. apply NoDup_fmap_2_strong; [| apply NoDup_seqZ].
  intros i j _ _. apply month_of_index_inj.
Qed.

Lemma suffixed_NoDup (root suffix : string) (months : list (Z * Z)) :
  Forall (λ ym, valid_date_month ym.1 ym.2) months →
  NoDup months →
  NoDup ((λ p, p +:+ suffix) <$> (prefix_of_month root <$> months)).
Proof.
  intros Hvalid Hmonths. rewrite <- list_fmap_compose.
  apply NoDup_fmap_2_strong; [| done].
  rewrite Forall_forall in Hvalid.
  intros [y m] [y' m'] Hin Hin' Heq. simpl in Heq.
  apply month_file_inj in Heq as (-> & -> & _);
    [done | by apply (Hvalid (y, m)) | by apply (Hvalid (y', m'))].
Qed.

Lemma suffixed_disjoint
    (root suffix suffix' : string) (months : list (Z * Z)) (path : string) :
  suffix ≠ suffix' →
  Forall (λ ym, valid_date_month ym.1 ym.2) months →
  path ∈ (λ p, p +:+ suffix) <$> (prefix_of_month root <$> months) →
  path ∉ (λ p, p +:+ suffix') <$> (prefix_of_month root <$> months).
Proof.
  intros Hsuffix Hvalid. rewrite Forall_forall in Hvalid.
  rewrite <- !list_fmap_compose.
  intros ([y m] & -> & Hin)%list_elem_of_fmap
         ([y' m'] & Heq & Hin')%list_elem_of_fmap.
  simpl in Heq.
  apply month_file_inj in Heq as (_ & _ & Heq);
    [done | by apply (Hvalid (y, m)) | by apply (Hvalid (y', m'))].
Qed.

(** X8. Two valid DateMonths with the same prefix are the same
    DateMonth: no two months share a directory or a file. *)
Theorem get_file_path_prefix_inj
    (root : string) (year month year' month' : Z) (prefix : string) :
  get_file_path_prefix root year month = Ok prefix →
  get_file_path_prefix root year' month' = Ok prefix →
  year = year' ∧ month = month'.
Proof.
  intros Hp Hp'.
  destruct (get_file_path_prefix_cases root year month)
    as [[Hvalid Heq] | [[_ Heq] | (_ & _ & Heq)]]; [| congruence..].
  destruct (get_file_path_prefix_cases root year' month')
    as [[Hvalid' Heq'] | [[_ Heq'] | (_ & _ & Heq')]]; [| congruence..].
  assert (prefix_of_month root (year, month) +:+ ""
          = prefix_of_month root (year', month') +:+ "") as Hsame.
  { unfold prefix_of_month. simpl. congruence. }
  by apply month_file_inj in Hsame as (-> & -> & _).
Qed.

Lemma get_file_path_prefix_inj_witness :
  2013 = 2013 ∧ 4 = 4.
Proof.
  apply (get_file_path_prefix_inj configured_root_data_dir 2013 4 2013 4
           "./full_data/2013_04_April/T201304");
    vm_compute; reflexivity.
Defined.

(** X9. The paths the three range functions return for a range are
    pairwise distinct: no file is named twice, within a list or across the
    lists. *)
Theorem range_filepaths_distinct
    (root : string) (year_from month_from year_to month_to : Z)
    (address_filepaths chems_filepaths pxdata_filenames : list string) :
  get_address_data_filepaths root year_from month_from year_to month_to
  = Ok address_filepaths →
  get_chems_data_filepaths root year_from month_from year_to month_to
  = Ok chems_filepaths →
  get_prescription_data_filepaths root year_from month_from year_to month_to
  = Ok pxdata_filenames →
  NoDup (address_filepaths ++ chems_filepaths ++ pxdata_filenames).
Proof.
  unfold get_address_data_filepaths, get_chems_data_filepaths,
    get_prescription_data_filepaths.
  destruct (get_data_filepath_prefixes root year_from month_from
              year_to month_to) as [prefixes | e |] eqn:Hprefixes;
    [| done | done].
  apply get_data_filepath_prefixes_ok_inv in Hprefixes
    as (Hfrom & _ & Hmt & Hyt & ->).
  pose proof (months_between_valid _ _ _ _ Hfrom Hmt Hyt) as Hvalid.
  pose proof (months_between_NoDup year_from month_from year_to month_to)
    as Hmonths.
  cbn [mbind result_bind]. intros [= <-] [= <-] [= <-].
  apply NoDup_app. split; [by apply suffixed_NoDup |]. split.
  - intros path Hpath [Hin | Hin]%elem_of_app;
      by eapply (suffixed_disjoint root "ADDR BNFT.CSV") in Hin.
  - apply NoDup_app. split; [by apply suffixed_NoDup |].
    split; [| by apply suffixed_NoDup].
    intros path Hpath Hin.
    by eapply (suffixed_disjoint root "CHEM SUBS.CSV") in Hin.
Qed.

Lemma range_filepaths_distinct_witness :
  NoDup (["./full_data/2013_12_December/T201312ADDR BNFT.CSV";
          "./full_data/2014_01_January/T201401ADDR BNFT.CSV"]
         ++ ["./full_data/2013_12_December/T201312CHEM SUBS.CSV";
             "./full_data/2014_01_January/T201401CHEM SUBS.CSV"]
         ++ ["./full_data/2013_12_December/T201312PDPI BNFT.CSV";
             "./full_data/2014_01_January/T201401PDPI BNFT.CSV"]).
Proof.
  apply (range_filepaths_distinct configured_root_data_dir 2013 12 2014 1);
    vm_compute; reflexivity.
Defined.

(** ** The prescription loader and the errors of the loaders *)

Lemma prescription_rows_data (rs : list prescription_row) :
  data_rows (prescription_fields <$> rs) = prescription_fields <$> rs.
Proof.
  apply data_rows_not_blank, Forall_fmap, Forall_true.
  intros r. unfold prescription_fields. simpl. by destruct (px_fields r).
Qed.

Lemma prescription_rows_regular (rs : list prescription_row) :
  Forall well_formed_prescription_row rs →
  regular_records 10 (prescription_fields <$> rs).
Proof.
  intros Hrows. unfold regular_records.
  destruct Hrows as [|r rs Hr Hrs]; [constructor |].
  rewrite fmap_cons. simpl. apply Forall_fmap.
  eapply Forall_impl; [exact Hrs |].
  intros r' (Hlen & _). unfold prescription_fields. simpl.
  rewrite length_app. simpl. lia.
Qed.

Lemma prescription_rows_months (rs : list prescription_row) :
  Forall well_formed_prescription_row rs →
  Forall (λ ym, 1678 <= ym.1 <= 2261 ∧ 1 <= ym.2 <= 12)
    ((λ r, (px_year r, px_month r)) <$> rs).
Proof.
  intros Hrows. apply Forall_fmap.
  eapply Forall_impl; [exact Hrows |]. by intros r (_ & Hy & Hm).
Qed.

(** The fields of the rows at one of the nine first positions, and at the
    last. *)
Lemma prescription_rows_field (rs : list prescription_row) (j : nat) :
  Forall well_formed_prescription_row rs →
  (j < 9)%nat →
  pd.field j <$> (prescription_fields <$> rs)
  = (λ r, nth j (px_fields r) "") <$> rs.
Proof.
  intros Hrows Hj. rewrite <- list_fmap_compose.
  apply Forall_fmap_ext. eapply Forall_impl; [exact Hrows |].
  intros r (Hlen & _). simpl. unfold pd.field, prescription_fields.
  apply app_nth1. lia.
Qed.

Lemma prescription_rows_period (rs : list prescription_row) :
  Forall well_formed_prescription_row rs →
  pd.field 9 <$> (prescription_fields <$> rs)
  = year_month_text <$> ((λ r, (px_year r, px_month r)) <$> rs).
Proof.
  intros Hrows. rewrite <- !list_fmap_compose.
  apply Forall_fmap_ext. eapply Forall_impl; [exact Hrows |].
  intros r (Hlen & _). simpl. unfold pd.field, prescription_fields.
  rewrite app_nth2 by lia. by rewrite Hlen.
Qed.

(** X10. For a prescription file of a header row followed by well-formed
    rows (nine fields, then a period written [YYYYMM]), the loader skips the
    header and returns a frame of the ten column names with one row per
    row of the file after the header, in file order.  Each of its nine
    first columns holds what the library reads from the fields of the rows
    at its position; the last holds the first day of the month of each
    period. *)
Theorem load_prescription_data_records
    (root : string) (lib : pd.library) (year month : Z) (w : world)
    (header : list string) (rs : list prescription_row) :
  2010 <= year <= 3000 → 1 <= month <= 12 →
  files w !! (prefix_of_month root (year, month) +:+ "PDPI BNFT.CSV")
  = Some (header :: (prescription_fields <$> rs)) →
  Forall well_formed_prescription_row rs →
  reads_dates lib →
  ∃ pxdata,
    load_prescription_data root lib year month w = (Ok pxdata, w)
    ∧ pd.columns pxdata
      = ["SHA"; "PCT"; "PracticeCode"; "BNFCode"; "BNFName";
         "LineCountDispensed"; "NetCost"; "ActualCost"; "QuantityDispensed";
         "Year-Month"]
    ∧ pd.data pxdata = prescription_columns lib rs
    ∧ Forall (λ column, length column = length rs) (pd.data pxdata).
Proof.
  intros Hy Hm Hfile Hrows Hlib.
  exists {| pd.columns :=
              ["SHA"; "PCT"; "PracticeCode"; "BNFCode"; "BNFName";
               "LineCountDispensed"; "NetCost"; "ActualCost";
               "QuantityDispensed"; "Year-Month"];
            pd.data := prescription_columns lib rs |}.
  split; [| split; [done | split; [done |]]].
  - unfold load_prescription_data.
    rewrite get_prescription_data_filepath_valid by done.
    rewrite bind_lift_ok. cbv beta zeta.
    erewrite bind_ok; last first.
    { rewrite (read_csv_found _ _ _ _ _ _ Hfile).
      change (drop 1 (header :: (prescription_fields <$> rs)))
        with (prescription_fields <$> rs).
      rewrite parse_csv_regular;
        change (drop 1 (header :: (prescription_fields <$> rs)))
          with (prescription_fields <$> rs);
        rewrite prescription_rows_data;
        [reflexivity | by apply prescription_rows_regular]. }
    simpl.
    rewrite !prescription_rows_field by (done || lia).
    rewrite prescription_rows_period by done.
    unfold pd.get_column, pd.column_index. simpl.
    rewrite bind_lift_ok.
    rewrite to_datetime_year_months
      by (done || by apply prescription_rows_months).
    rewrite bind_lift_ok. reflexivity.
  - simpl. unfold prescription_columns. apply Forall_app. split.
    + apply Forall_fmap, Forall_true. intros j. simpl.
      by rewrite length_read_column, length_fmap.
    + constructor; [| constructor].
      unfold first_days. by rewrite !length_fmap.
Qed.

Lemma load_prescription_data_records_witness :
  ∃ pxdata,
    load_prescription_data configured_root_data_dir pd.text_library 2013 5
      may_world
    = (Ok pxdata, may_world)
    ∧ pd.columns pxdata
      = ["SHA"; "PCT"; "PracticeCode"; "BNFCode"; "BNFName";
         "LineCountDispensed"; "NetCost"; "ActualCost"; "QuantityDispensed";
         "Year-Month"]
    ∧ pd.data pxdata
      = [[pd.Text "Q30"; pd.Text "Q30"];
         [pd.Text "5D7"; pd.Text "5D7"];
         [pd.Text "A86003"; pd.Text "A86003"];
         [pd.Text "0101010G0AAABAB"; pd.Text "0101021B0AAAHAH"];
         [pd.Text "Co-Magaldrox_Susp"; pd.Text "Alginate_Raft-Forming"];
         [pd.Text "2"; pd.Text "1"];
         [pd.Text "5.98"; pd.Text "5.12"];
         [pd.Text "5.56"; pd.Text "4.76"];
         [pd.Text "1000"; pd.Text "500"];
         [pd.Timestamp 2013 5 1; pd.Timestamp 2013 5 1]]
    ∧ Forall (λ column, length column = 2%nat) (pd.data pxdata).
Proof.
  apply (load_prescription_data_records configured_root_data_dir
           pd.text_library 2013 5 may_world
           ["SHA"; "PCT"; "PRACTICE"; "BNF CODE"; "BNF NAME"; "ITEMS"; "NIC";
            "ACT COST"; "QUANTITY"; "PERIOD"]
           [ {| px_fields := ["Q30"; "5D7"; "A86003"; "0101010G0AAABAB";
                              "Co-Magaldrox_Susp"; "2"; "5.98"; "5.56";
                              "1000"];
                px_year := 2013; px_month := 5 |};
             {| px_fields := ["Q30"; "5D7"; "A86003"; "0101021B0AAAHAH";
                              "Alginate_Raft-Forming"; "1"; "5.12"; "4.76";
                              "500"];
                px_year := 2013; px_month := 5 |} ]).
  - lia.
  - lia.
  - vm_compute. reflexivity.
  - repeat constructor; simpl; lia.
  - exact text_library_reads_dates.
Defined.

Lemma bind_lift_raise {A B : Type} (e : exn) (k : A → IO B) (w : world) :
  (lift (Raise e) ≫= k) w = (Raise e, w).
Proof. reflexivity. Qed.

(** X11. The loaders validate the DateMonth before they touch a file: on
    an invalid DateMonth each of them raises the assertion of the year or
    of the month, whatever the files are.  On a valid DateMonth whose file
    is missing, each of them raises [FileNotFoundError] with the path of
    its file.  In both cases the world is left as it was. *)
Theorem loaders_fail_early
    (root : string) (lib : pd.library) (year month : Z) (w : world) :
  (¬ valid_date_month year month →
   ∃ msg,
     (msg = year_msg ∨ msg = month_msg)
     ∧ load_address_data root lib year month w
       = (Raise (AssertionError msg), w)
     ∧ load_chems_data root lib year month w
       = (Raise (AssertionError msg), w)
     ∧ load_prescription_data root lib year month w
       = (Raise (AssertionError msg), w))
  ∧ (valid_date_month year month →
     (files w !! (prefix_of_month root (year, month) +:+ "ADDR BNFT.CSV")
      = None →
      load_address_data root lib year month w
      = (Raise (FileNotFoundError
                  (prefix_of_month root (year, month) +:+ "ADDR BNFT.CSV")),
         w))
     ∧ (files w !! (prefix_of_month root (year, month) +:+ "CHEM SUBS.CSV")
        = None →
        load_chems_data root lib year month w
        = (Raise (FileNotFoundError
                    (prefix_of_month root (year, month) +:+ "CHEM SUBS.CSV")),
           w))
     ∧ (files w !! (prefix_of_month root (year, month) +:+ "PDPI BNFT.CSV")
        = None →
        load_prescription_data root lib year month w
        = (Raise (FileNotFoundError
                    (prefix_of_month root (year, month) +:+ "PDPI BNFT.CSV")),
           w))).
Proof.
  split.
  - intros Hinvalid.
    assert (∃ msg, (msg = year_msg ∨ msg = month_msg)
                   ∧ get_file_path_prefix root year month
                     = Raise (AssertionError msg)) as (msg & Hmsg & Hfail).
    { destruct (get_file_path_prefix_cases root year month)
        as [[Hvalid _] | [[_ Hp] | (_ & _ & Hp)]]; [done | eauto..]. }
    exists msg. split; [done |].
    unfold load_address_data, load_chems_data, load_prescription_data,
      get_address_data_filepath, get_chems_data_filepath,
      get_prescription_data_filepath.
    rewrite Hfail. by repeat split.
  - intros Hvalid.
    unfold load_address_data, load_chems_data, load_prescription_data.
    rewrite get_address_data_filepath_valid,
      get_chems_data_filepath_valid,
      get_prescription_data_filepath_valid by done.
    split; [| split]; intros Hfile; rewrite bind_lift_ok; cbv beta zeta.
    + by rewrite (bind_raise _ _ _ _ _ (read_csv_missing _ _ _ _ _ Hfile)).
    + by apply read_csv_missing.
    + by rewrite (bind_raise _ _ _ _ _ (read_csv_missing _ _ _ _ _ Hfile)).
Qed.

Lemma loaders_fail_early_witness :
  load_prescription_data configured_root_data_dir pd.text_library 2013 4
    april_world
  = (Raise (FileNotFoundError
              "./full_data/2013_04_April/T201304PDPI BNFT.CSV"),
     april_world)
  ∧ ∃ msg,
      (msg = year_msg ∨ msg = month_msg)
      ∧ load_address_data configured_root_data_dir pd.text_library 2013 13
          april_world
        = (Raise (AssertionError msg), april_world)
      ∧ load_chems_data configured_root_data_dir pd.text_library 2013 13
          april_world
        = (Raise (AssertionError msg), april_world)
      ∧ load_prescription_data configured_root_data_dir pd.text_library
          2013 13 april_world
        = (Raise (AssertionError msg), april_world).
Proof.
  split.
  - apply (loaders_fail_early configured_root_data_dir pd.text_library
             2013 4 april_world).
    + unfold valid_date_month. lia.
    + vm_compute. reflexivity.
  - apply (loaders_fail_early configured_root_data_dir pd.text_library
             2013 13 april_world).
    unfold valid_date_month. lia.
Defined.

(** ** Counting the months, and the checker before the loaders *)

(** X13. A list the range generator returns is never empty: it has one
    entry for each of the 12 * (year_to - year_from) + (month_to -
    month_from) + 1 months that the arguments span. *)
Theorem get_data_filepath_prefixes_length
    (root : string) (year_from month_from year_to month_to : Z)
    (filepaths : list string) :
  get_data_filepath_prefixes root year_from month_from year_to month_to
  = Ok filepaths →
  Z.of_nat (length filepaths)
  = 12 * (year_to - year_from) + (month_to - month_from) + 1
  ∧ (0 < length filepaths)%nat.
Proof.
  intros ([Hyf Hmf] & Hrange & Hmt & Hyt & ->)
    %get_data_filepath_prefixes_ok_inv.
  unfold months_between, month_index, not_after in *.
  rewrite !length_fmap, length_seqZ. lia.
Qed.

Lemma get_data_filepath_prefixes_length_witness :
  Z.of_nat (length ["./full_data/2013_11_November/T201311";
                    "./full_data/2013_12_December/T201312";
                    "./full_data/2014_01_January/T201401";
                    "./full_data/2014_02_February/T201402"])
  = 12 * (2014 - 2013) + (2 - 11) + 1
  ∧ (0 < length ["./full_data/2013_11_November/T201311";
                 "./full_data/2013_12_December/T201312";
                 "./full_data/2014_01_January/T201401";
                 "./full_data/2014_02_February/T201402"])%nat.
Proof.
  apply (get_data_filepath_prefixes_length
           configured_root_data_dir 2013 11 2014 2).
  vm_compute. reflexivity.
Defined.

(** The months the checker went through when it returned are valid. *)
Lemma check_data_returns_valid
    (root : string) (year_from month_from year_to month_to : Z)
    (w w' : world) :
  check_data root year_from month_from year_to month_to w = (Ok tt, w') →
  Forall (λ ym, valid_date_month ym.1 ym.2)
    (months_between year_from month_from year_to month_to).
Proof.
  intros Hrun.
  destruct (get_data_filepath_prefixes root year_from month_from
              year_to month_to) as [prefixes | e |] eqn:Hprefixes.
  - apply get_data_filepath_prefixes_ok_inv in Hprefixes
      as (Hfrom & _ & Hmt & Hyt & _).
    by apply months_between_valid.
  - rewrite (check_data_raise _ _ _ _ _ _ _ Hprefixes) in Hrun. congruence.
  - by apply get_data_filepath_prefixes_terminates in Hprefixes.
Qed.

(** [to_datetime] raises nothing but its three errors. *)
Lemma to_datetime_raises
    (lib : pd.library) (column : list (pd.cell lib)) (e : exn) :
  pd.to_datetime lib column = Raise e →
  e = ValueError ∨ e = OutOfBoundsDatetime ∨ e = TypeError.
Proof.
  unfold pd.to_datetime. revert e.
  induction column as [|c column IH]; intros e; [done |].
  rewrite mapM_result_cons.
  destruct (pd.to_datetime_cell lib c) as [d | e' |] eqn:Hcell.
  - cbn [mbind result_bind].
    destruct (mapM (pd.to_datetime_cell lib) column) as [k | e'' |];
      cbn [mbind result_bind]; [done | | done].
    intros [= <-]. by apply IH.
  - cbn [mbind result_bind]. intros [= <-].
    destruct c as [v | | y m d]; simpl in Hcell; [| done..].
    destruct (pd.strptime_Ym lib v); simplify_eq; auto.
  - done.
Qed.

(** A loader that parses a column of a frame it has read does not raise
    [FileNotFoundError]. *)
Lemma parse_column_not_missing
    (lib : pd.library) (df : pd.DataFrame lib) (name path : string)
    (w : world) :
  ((lift (pd.get_column lib df name) ≫= λ column,
      lift (pd.to_datetime lib column) ≫= λ dates,
        mret (pd.set_column lib df name dates)) w).1
  ≠ Raise (FileNotFoundError path).
Proof.
  destruct (pd.get_column lib df name) as [column | e |] eqn:Hcolumn.
  - rewrite bind_lift_ok.
    destruct (pd.to_datetime lib column) as [dates | e |] eqn:Hdates.
    + by rewrite bind_lift_ok.
    + rewrite bind_lift_raise. simpl.
      apply to_datetime_raises in Hdates as [-> | [-> | ->]]; congruence.
    + done.
  - rewrite bind_lift_raise. simpl. unfold pd.get_column in Hcolumn.
    destruct (pd.column_index lib df name ≫= _); congruence.
  - done.
Qed.

(** The reader on a file that exists does not raise [FileNotFoundError],
    nor does what follows it when it does not. *)
Lemma read_csv_found_not_missing {B : Type}
    (lib : pd.library) (file path : string) (names : list string)
    (skiprows : nat) (lines : list (list string))
    (k : pd.DataFrame lib → IO B) (w : world) :
  files w !! file = Some lines →
  (∀ df, (k df w).1 ≠ Raise (FileNotFoundError path)) →
  ((pd.read_csv lib file names skiprows ≫= k) w).1
  ≠ Raise (FileNotFoundError path).
Proof.
  intros Hfile Hk.
  pose proof (read_csv_found lib file names skiprows lines w Hfile) as Hread.
  destruct (pd.parse_csv lib lines names skiprows) as [df | e |] eqn:Hparse.
  - rewrite (bind_ok _ _ _ _ _ Hread). apply Hk.
  - rewrite (bind_raise _ _ _ _ _ Hread). simpl.
    apply parse_csv_raises in Hparse as ->. congruence.
  - unfold pd.parse_csv in Hparse. by destruct (forallb _ _).
Qed.

(** X14. The checker is a test before loading: when it returns and has
    printed nothing, no loader raises [FileNotFoundError] for any month of
    the range. *)
Theorem check_data_then_load
    (root : string) (lib : pd.library)
    (year_from month_from year_to month_to : Z)
    (w w' : world) (ym : Z * Z) (path : string) :
  check_data root year_from month_from year_to month_to w = (Ok tt, w') →
  stdout w' = stdout w →
  ym ∈ months_between year_from month_from year_to month_to →
  (load_address_data root lib ym.1 ym.2 w').1
  ≠ Raise (FileNotFoundError path)
  ∧ (load_chems_data root lib ym.1 ym.2 w').1
    ≠ Raise (FileNotFoundError path)
  ∧ (load_prescription_data root lib ym.1 ym.2 w').1
    ≠ Raise (FileNotFoundError path).
Proof.
  intros Hrun Hout Hym.
  pose proof (check_data_returns_valid _ _ _ _ _ _ _ Hrun) as Hvalid.
  rewrite Forall_forall in Hvalid. specialize (Hvalid ym Hym).
  apply check_data_returns_inv in Hrun as ->. simpl in Hout.
  rewrite <- (app_nil_r (stdout w)) in Hout at 2.
  apply app_inv_head, warnings_for_nil_iff in Hout.
  rewrite Forall_forall in Hout.
  assert (∀ file, file ∈ files_of_month root ym →
            is_Some (files w !! file)) as Hfiles.
  { intros file Hfile. apply Hout. unfold files_of_months.
    apply list_elem_of_bind. eauto. }
  destruct ym as [y m]. simpl in Hvalid |- *.
  unfold files_of_month, files_of_prefix in Hfiles.
  destruct (Hfiles (prefix_of_month root (y, m) +:+ "ADDR BNFT.CSV"))
    as [address Haddress]; [rewrite !elem_of_cons; auto |].
  destruct (Hfiles (prefix_of_month root (y, m) +:+ "CHEM SUBS.CSV"))
    as [chems Hchems]; [rewrite !elem_of_cons; auto |].
  destruct (Hfiles (prefix_of_month root (y, m) +:+ "PDPI BNFT.CSV"))
    as [pxdata Hpxdata]; [rewrite !elem_of_cons; auto |].
  unfold load_address_data, load_chems_data, load_prescription_data.
  rewrite get_address_data_filepath_valid,
    get_chems_data_filepath_valid,
    get_prescription_data_filepath_valid by done.
  rewrite !bind_lift_ok. cbv beta zeta.
  split; [| split].
  - apply (read_csv_found_not_missing _ _ _ _ _ address); [done |].
    intros df. apply parse_column_not_missing.
  - rewrite (read_csv_found _ _ _ _ chems) by done. simpl.
    destruct (pd.parse_csv lib chems _ 1) as [df | e |] eqn:Hparse;
      [done | | done].
    apply parse_csv_raises in Hparse as ->. congruence.
  - apply (read_csv_found_not_missing _ _ _ _ _ pxdata); [done |].
    intros df. apply parse_column_not_missing.
Qed.

Lemma check_data_then_load_witness :
  let w' := (check_data configured_root_data_dir 2013 4 2013 4
               complete_world).2 in
  (load_address_data configured_root_data_dir pd.text_library 2013 4 w').1
  ≠ Raise (FileNotFoundError
             "./full_data/2013_04_April/T201304ADDR BNFT.CSV")
  ∧ (load_chems_data configured_root_data_dir pd.text_library 2013 4 w').1
    ≠ Raise (FileNotFoundError
               "./full_data/2013_04_April/T201304ADDR BNFT.CSV")
  ∧ (load_prescription_data configured_root_data_dir pd.text_library
       2013 4 w').1
    ≠ Raise (FileNotFoundError
               "./full_data/2013_04_April/T201304ADDR BNFT.CSV").
Proof.
  apply (check_data_then_load configured_root_data_dir pd.text_library
           2013 4 2013 4 complete_world _ (2013, 4)).
  - vm_compute. reflexivity.
  - vm_compute. reflexivity.
  - vm_compute. apply elem_of_cons. by left.
Defined.

(** ** The reader on three small files *)

(** A row longer than the first data row and than the names is an error. *)
Example parse_csv_longer_row :
  pd.parse_csv pd.text_library
    [["CHEM SUB"; "NAME"]; ["a"; "b"]; ["c"; "d"; "X"]]
    ["ChemCode"; "ChemName"] 1
  = Raise ParserError.
Proof. reflexivity. Qed.

(** A blank line is passed over and gives no row. *)
Example parse_csv_blank_line :
  pd.parse_csv pd.text_library
    [["CHEM SUB"; "NAME"]; ["a"; "b"]; []; ["c"; "d"]]
    ["ChemCode"; "ChemName"] 1
  = Ok {| pd.columns := ["ChemCode"; "ChemName"];
          pd.data := [[pd.Text "a"; pd.Text "c"];
                      [pd.Text "b"; pd.Text "d"]] |}.
Proof. reflexivity. Qed.

(** Rows that all end with a delimiter have one field more than the names:
    the last column is dropped. *)
Example parse_csv_trailing_delimiter :
  pd.parse_csv pd.text_library
    [["CHEM SUB"; "NAME"; "201304"; ""]; ["a"; "b"; ""]; ["c"; "d"; ""]]
    ["ChemCode"; "ChemName"] 1
  = Ok {| pd.columns := ["ChemCode"; "ChemName"];
          pd.data := [[pd.Text "a"; pd.Text "c"];
                      [pd.Text "b"; pd.Text "d"]] |}.
Proof. reflexivity. Qed.
